(** * Access control of the design repository: row-level security and the
      client calls that go through it

    The repository is a React client over a Postgres database with row-level
    security (RLS) and an object store whose [storage.objects] table is
    guarded by RLS too.  This development embeds

    - the two migrations (the tables the client code below reads or writes,
      the [handle_new_user] and [update_updated_at_column] triggers, and
      every [CREATE POLICY] on those tables and on [storage.objects]),
    - the client functions that issue the requests the policies decide
      ([createJob], [deleteJob], [handleFileUpload], [deleteFile],
      [fetchVersions], [createNewVersion], [updateUserRole]),

    and proves what the storage layer permits and what the client stores. *)

From Stdlib Require Import String Ascii List Bool ZArith Lia Sorted.
From stdpp Require Import base option list strings gmap pretty.

Local Open Scope string_scope.
Local Open Scope list_scope.

(** ** SQL values *)

(** UUID columns and [auth.uid()], in their text form. *)
Definition uuid := string.
Definition timestamp := nat.
Definition blob := list Byte.byte.

Module Sql.

(** A SQL boolean: [None] is NULL. *)
Definition sqlbool := option bool.

(** [a = b] is NULL as soon as one side is NULL. *)
Definition eq (a b : option string) : sqlbool :=
  match a, b with
  | Some x, Some y => Some (bool_decide (x = y))
  | _, _ => None
  end.

Definition or (a b : sqlbool) : sqlbool :=
  match a, b with
  | Some true, _ | _, Some true => Some true
  | Some false, Some false => Some false
  | _, _ => None
  end.

Definition and (a b : sqlbool) : sqlbool :=
  match a, b with
  | Some false, _ | _, Some false => Some false
  | Some true, Some true => Some true
  | _, _ => None
  end.

(** [b = true] for a nullable boolean column. *)
Definition is_true (b : option bool) : sqlbool := b.

(** [x IN (v1, ..., vn)] over non-null literals. *)
Definition in_list (x : option string) (vs : list string) : sqlbool :=
  match x with
  | Some v => Some (bool_decide (v ∈ vs))
  | None => None
  end.

(** [COALESCE(a, b)]. *)
Definition coalesce (a b : option string) : option string :=
  match a with Some _ => a | None => b end.

(** A row passes a policy expression, and a [CASE WHEN] takes its branch,
    only when the expression is true: NULL counts as not true. *)
Definition holds (v : sqlbool) : bool :=
  match v with Some true => true | _ => false end.

End Sql.

(** ** Text functions of the client and of the platform *)

(** [s.split(sep)] of JavaScript for a one-character separator: never empty. *)
Fixpoint split_on (sep : ascii) (s : string) : list string :=
  match s with
  | EmptyString => [EmptyString]
  | String c rest =>
      if Ascii.eqb c sep then EmptyString :: split_on sep rest
      else match split_on sep rest with
           | [] => [String c EmptyString]
           | seg :: segs => String c seg :: segs
           end
  end.

(** [arr.pop()] used as an expression: the last element, [undefined] on an
    empty array. *)
Definition js_pop (arr : list string) : option string := last arr.

(** A value inside a template literal; [undefined] prints as its name. *)
Definition js_show (v : option string) : string := default "undefined" v.

(** [string_to_array(s, sep)] of Postgres: the empty string gives the empty
    array. *)
Definition string_to_array (s : string) (sep : ascii) : list string :=
  match s with
  | EmptyString => []
  | _ => split_on sep s
  end.

(** [storage.foldername(name)] of the platform: the path's segments without
    the last one, [_parts[1 : array_length(_parts, 1) - 1]]. *)
Definition foldername (name : string) : list string :=
  let _parts := string_to_array name "/" in
  take (length _parts - 1) _parts.

(** [(arr)[1]]: arrays are 1-based and an index out of range gives NULL. *)
Definition sql_first (arr : list string) : option string := head arr.

(** ** The caller of a request *)

(** What [auth.uid()] and [auth.role()] return for the request's token:
    the anonymous key gives a NULL uid and the role ['anon']. *)
Record Caller := {
  auth_uid : option uuid;
  auth_role : string;
}.

Definition authenticated (c : Caller) : Sql.sqlbool :=
  Sql.eq (Some (auth_role c)) (Some "authenticated").

(** The signed-in user as the client holds it ([user] of [useAuth]). *)
Definition session (u : uuid) : Caller :=
  {| auth_uid := Some u; auth_role := "authenticated" |}.

Definition anonymous : Caller :=
  {| auth_uid := None; auth_role := "anon" |}.

(** ** Tables *)

(** [auth.users], as far as [handle_new_user] reads it. *)
Record AuthUser := {
  u_id : uuid;
  u_email : option string;
  (** [raw_user_meta_data->>'full_name'] *)
  u_meta_full_name : option string;
}.

Record Profile := {
  p_id : uuid;
  p_email : string;
  p_full_name : string;
  p_role : string;
  p_created_at : timestamp;
  p_updated_at : timestamp;
}.

(** The timestamp columns of the remaining tables take no part in any
    policy or client decision below and are left out of their rows. *)
Record Job := {
  j_id : uuid;
  j_name : string;
  j_description : option string;
  j_created_by : option uuid;
  j_thumbnail : option string;
  j_priority : option string;
  j_status : option string;
  j_client_name : option string;
}.

Record JobFile := {
  f_id : uuid;
  f_job_id : option uuid;
  f_file_name : string;
  f_file_path : string;
  f_file_type : string;
  f_file_size : Z;
  f_is_presentation : option bool;
  f_uploaded_by : option uuid;
}.

Record Template := {
  t_id : uuid;
  t_name : string;
  t_description : option string;
  t_thumbnail : option string;
  t_template_data : option string;
  t_category : option string;
  t_is_public : option bool;
  t_created_by : option uuid;
}.

Record FileComment := {
  c_id : uuid;
  c_file_id : uuid;
  c_user_id : uuid;
  c_comment : string;
  c_parent_id : option uuid;
}.

Record FileVersion := {
  v_id : uuid;
  v_file_id : uuid;
  v_version_number : Z;
  v_file_path : string;
  v_file_size : Z;
  v_changelog : option string;
  v_created_by : option uuid;
}.

(** A row of [storage.objects], as far as the policies read it. *)
Record StorageObject := {
  o_bucket_id : string;
  o_name : string;
}.

(** ** Row-level security *)

Inductive command := SELECT | INSERT | UPDATE | DELETE.

Global Instance command_eq_dec : EqDecision command.
Proof. solve_decision. Defined.

(** One [CREATE POLICY name ON table FOR cmd ...].  [pol_expr] is the
    [USING] expression of a SELECT, UPDATE or DELETE policy and the
    [WITH CHECK] expression of an INSERT policy; no policy of the
    migrations gives both. *)
Record Policy (R : Type) := {
  pol_name : string;
  pol_cmd : command;
  pol_expr : Caller -> R -> Sql.sqlbool;
}.
Arguments pol_name {R} _.
Arguments pol_cmd {R} _.
Arguments pol_expr {R} _ _ _.

Module Rls.
Section Engine.
Context {R : Type}.
Variable policies : list (Policy R).

(** Every table of the migrations has RLS enabled and only permissive
    policies: a row passes for a command when some policy for that command
    is true on it, and no policy at all means no row passes. *)
Definition passes (cmd : command) (c : Caller) (row : R) : bool :=
  existsb (fun p => bool_decide (pol_cmd p = cmd) && Sql.holds (pol_expr p c row))
          policies.

(** The rows a [select] returns. *)
Definition select (c : Caller) (filter_ : R -> bool) (tbl : list R) : list R :=
  List.filter (fun r => filter_ r && passes SELECT c r) tbl.

(** The client's filters ([.eq('id', ...)]) read a column, so the SELECT
    policies apply to the rows an UPDATE or DELETE may touch next to the
    command's own. *)
Definition may_delete (c : Caller) (row : R) : bool :=
  passes SELECT c row && passes DELETE c row.

Definition may_update (c : Caller) (row : R) : bool :=
  passes SELECT c row && passes UPDATE c row.

(** [delete().eq(...)]: the rows that match and pass are removed, the
    others stay, and the request reports no error either way. *)
Definition delete (c : Caller) (filter_ : R -> bool) (tbl : list R) : list R :=
  List.filter (fun r => negb (filter_ r && may_delete c r)) tbl.

(** The rows a delete removes. *)
Definition deleted (c : Caller) (filter_ : R -> bool) (tbl : list R) : list R :=
  List.filter (fun r => filter_ r && may_delete c r) tbl.

(** [update(patch).eq(...)]: a row that matches and passes is replaced by
    its patched version; an UPDATE policy without [WITH CHECK] applies its
    [USING] expression to the new row, and a new row that fails it aborts
    the statement. *)
Definition update (c : Caller) (filter_ : R -> bool) (patch : R -> R)
    (tbl : list R) : option (list R) :=
  let touched := List.filter (fun r => filter_ r && may_update c r) tbl in
  if forallb (fun r => passes UPDATE c (patch r)) touched
  then Some (map (fun r => if filter_ r && may_update c r then patch r else r) tbl)
  else None.

(** [insert([row])]: the new row must pass an INSERT policy. *)
Definition may_insert (c : Caller) (row : R) : bool := passes INSERT c row.

End Engine.
End Rls.

(** ** The policies of the migrations *)

Definition profiles_policies : list (Policy Profile) := [
  {| pol_name := "Users can view all profiles"; pol_cmd := SELECT;
     pol_expr := fun c _ => authenticated c |};
  {| pol_name := "Users can update own profile"; pol_cmd := UPDATE;
     pol_expr := fun c r => Sql.eq (auth_uid c) (Some (p_id r)) |}
].

Definition jobs_policies : list (Policy Job) := [
  {| pol_name := "Authenticated users can view all jobs"; pol_cmd := SELECT;
     pol_expr := fun c _ => authenticated c |};
  {| pol_name := "Authenticated users can create jobs"; pol_cmd := INSERT;
     pol_expr := fun c _ => authenticated c |};
  {| pol_name := "Users can update jobs they created"; pol_cmd := UPDATE;
     pol_expr := fun c r => Sql.eq (auth_uid c) (j_created_by r) |};
  {| pol_name := "Users can delete jobs they created"; pol_cmd := DELETE;
     pol_expr := fun c r => Sql.eq (auth_uid c) (j_created_by r) |}
].

Definition job_files_policies : list (Policy JobFile) := [
  {| pol_name := "Authenticated users can view all job files"; pol_cmd := SELECT;
     pol_expr := fun c _ => authenticated c |};
  {| pol_name := "Authenticated users can upload job files"; pol_cmd := INSERT;
     pol_expr := fun c _ => authenticated c |};
  {| pol_name := "Users can update files they uploaded"; pol_cmd := UPDATE;
     pol_expr := fun c r => Sql.eq (auth_uid c) (f_uploaded_by r) |};
  {| pol_name := "Users can delete files they uploaded"; pol_cmd := DELETE;
     pol_expr := fun c r => Sql.eq (auth_uid c) (f_uploaded_by r) |}
].

Definition storage_objects_policies : list (Policy StorageObject) := [
  {| pol_name := "Authenticated users can view job files"; pol_cmd := SELECT;
     pol_expr := fun c o =>
       Sql.and (Sql.eq (Some (o_bucket_id o)) (Some "job-files")) (authenticated c) |};
  {| pol_name := "Authenticated users can upload job files"; pol_cmd := INSERT;
     pol_expr := fun c o =>
       Sql.and (Sql.eq (Some (o_bucket_id o)) (Some "job-files")) (authenticated c) |};
  {| pol_name := "Users can update their uploaded files"; pol_cmd := UPDATE;
     pol_expr := fun c o =>
       Sql.and (Sql.eq (Some (o_bucket_id o)) (Some "job-files"))
               (Sql.eq (auth_uid c) (sql_first (foldername (o_name o)))) |};
  {| pol_name := "Users can delete their uploaded files"; pol_cmd := DELETE;
     pol_expr := fun c o =>
       Sql.and (Sql.eq (Some (o_bucket_id o)) (Some "job-files"))
               (Sql.eq (auth_uid c) (sql_first (foldername (o_name o)))) |}
].

Definition project_templates_policies : list (Policy Template) := [
  {| pol_name := "All users can view public templates"; pol_cmd := SELECT;
     pol_expr := fun c r =>
       Sql.or (Sql.is_true (t_is_public r)) (Sql.eq (auth_uid c) (t_created_by r)) |};
  {| pol_name := "Authenticated users can create templates"; pol_cmd := INSERT;
     pol_expr := fun c _ => authenticated c |};
  {| pol_name := "Users can update their own templates"; pol_cmd := UPDATE;
     pol_expr := fun c r => Sql.eq (auth_uid c) (t_created_by r) |}
].

Definition file_comments_policies : list (Policy FileComment) := [
  {| pol_name := "Authenticated users can view all file comments"; pol_cmd := SELECT;
     pol_expr := fun c _ => authenticated c |};
  {| pol_name := "Authenticated users can create file comments"; pol_cmd := INSERT;
     pol_expr := fun c _ => authenticated c |};
  {| pol_name := "Users can update their own comments"; pol_cmd := UPDATE;
     pol_expr := fun c r => Sql.eq (auth_uid c) (Some (c_user_id r)) |};
  {| pol_name := "Users can delete their own comments"; pol_cmd := DELETE;
     pol_expr := fun c r => Sql.eq (auth_uid c) (Some (c_user_id r)) |}
].

Definition file_versions_policies : list (Policy FileVersion) := [
  {| pol_name := "Authenticated users can view all file versions"; pol_cmd := SELECT;
     pol_expr := fun c _ => authenticated c |};
  {| pol_name := "Authenticated users can create file versions"; pol_cmd := INSERT;
     pol_expr := fun c _ => authenticated c |}
].

(** ** The stored state *)

Record World := {
  auth_users : list AuthUser;
  profiles : list Profile;
  jobs : list Job;
  job_files : list JobFile;
  project_templates : list Template;
  file_comments : list FileComment;
  file_versions : list FileVersion;
  (** the objects of the bucket ['job-files'], by name *)
  objects : gmap string blob;
}.

Definition set_auth_users (x : list AuthUser) (w : World) : World :=
  {| auth_users := x; profiles := profiles w; jobs := jobs w;
     job_files := job_files w; project_templates := project_templates w;
     file_comments := file_comments w; file_versions := file_versions w;
     objects := objects w |}.

Definition set_profiles (x : list Profile) (w : World) : World :=
  {| auth_users := auth_users w; profiles := x; jobs := jobs w;
     job_files := job_files w; project_templates := project_templates w;
     file_comments := file_comments w; file_versions := file_versions w;
     objects := objects w |}.

Definition set_jobs (x : list Job) (w : World) : World :=
  {| auth_users := auth_users w; profiles := profiles w; jobs := x;
     job_files := job_files w; project_templates := project_templates w;
     file_comments := file_comments w; file_versions := file_versions w;
     objects := objects w |}.

Definition set_job_files (x : list JobFile) (w : World) : World :=
  {| auth_users := auth_users w; profiles := profiles w; jobs := jobs w;
     job_files := x; project_templates := project_templates w;
     file_comments := file_comments w; file_versions := file_versions w;
     objects := objects w |}.

Definition set_file_versions (x : list FileVersion) (w : World) : World :=
  {| auth_users := auth_users w; profiles := profiles w; jobs := jobs w;
     job_files := job_files w; project_templates := project_templates w;
     file_comments := file_comments w; file_versions := x;
     objects := objects w |}.

Definition set_objects (x : gmap string blob) (w : World) : World :=
  {| auth_users := auth_users w; profiles := profiles w; jobs := jobs w;
     job_files := job_files w; project_templates := project_templates w;
     file_comments := file_comments w; file_versions := file_versions w;
     objects := x |}.

Definition empty_world : World :=
  {| auth_users := []; profiles := []; jobs := []; job_files := [];
     project_templates := []; file_comments := []; file_versions := [];
     objects := ∅ |}.

(** A nullable foreign key: NULL, or the key of a row of the parent. *)
Definition references (fk : option uuid) (keys : list uuid) : bool :=
  match fk with
  | None => true
  | Some k => bool_decide (k ∈ keys)
  end.

(** A [CHECK (col IN (...))] constraint: NULL passes. *)
Definition check_in (v : option string) (allowed : list string) : bool :=
  match v with
  | None => true
  | Some x => bool_decide (x ∈ allowed)
  end.

(** ** Identity bootstrap: [handle_new_user] *)

Definition admin_emails : list string :=
  ["eman.mukhtar@fastsigns.com"; "chuck@curryhhi.com"].

(** The [VALUES (...)] row of [handle_new_user]; [email] and [full_name] are
    NOT NULL, so a NULL there raises and there is no row. *)
Definition new_profile_row (NEW : AuthUser) (now : timestamp) : option Profile :=
  email ← u_email NEW;
  full_name ← Sql.coalesce (u_meta_full_name NEW) (u_email NEW);
  Some {| p_id := u_id NEW;
          p_email := email;
          p_full_name := full_name;
          p_role := if Sql.holds (Sql.in_list (u_email NEW) admin_emails)
                    then "admin" else "user";
          p_created_at := now;
          p_updated_at := now |}.

(** The trigger function; [None] is a raised error (a NULL in a NOT NULL
    column, or a second row for the primary key [id]). *)
Definition handle_new_user (NEW : AuthUser) (now : timestamp) (w : World)
    : option World :=
  row ← new_profile_row NEW now;
  if bool_decide (p_id row ∈ map p_id (profiles w)) then None
  else Some (set_profiles (profiles w ++ [row]) w).

(** The identity provider's insert into [auth.users], with the trigger
    [on_auth_user_created] AFTER INSERT FOR EACH ROW: an error of the
    trigger undoes the insert. *)
Definition sign_up (NEW : AuthUser) (now : timestamp) (w : World) : option World :=
  if bool_decide (u_id NEW ∈ map u_id (auth_users w)) then None
  else handle_new_user NEW now (set_auth_users (auth_users w ++ [NEW]) w).

(** ** Profiles: updates *)

(** [update_updated_at_column], BEFORE UPDATE on [profiles]. *)
Definition update_updated_at_column (now : timestamp) (NEW : Profile) : Profile :=
  {| p_id := p_id NEW; p_email := p_email NEW; p_full_name := p_full_name NEW;
     p_role := p_role NEW; p_created_at := p_created_at NEW;
     p_updated_at := now |}.

(** The columns the client's updates on [profiles] name ([updateUserRole]:
    role and updated_at; [updateProfile]: full_name and updated_at), and
    email.  No client function names [id] or [created_at], and a patch
    here cannot. *)
Record ProfilePatch := {
  set_email : option string;
  set_full_name : option string;
  set_role : option string;
  set_updated_at : option timestamp;
}.

Definition apply_profile_patch (patch : ProfilePatch) (r : Profile) : Profile :=
  {| p_id := p_id r;
     p_email := default (p_email r) (set_email patch);
     p_full_name := default (p_full_name r) (set_full_name patch);
     p_role := default (p_role r) (set_role patch);
     p_created_at := p_created_at r;
     p_updated_at := default (p_updated_at r) (set_updated_at patch) |}.

(** [from('profiles').update(patch).eq('id', id)]; the BEFORE UPDATE trigger
    runs on the patched row before the policy checks it. *)
Definition profiles_update (c : Caller) (id : uuid) (patch : ProfilePatch)
    (now : timestamp) (w : World) : option World :=
  tbl ← Rls.update profiles_policies c
          (fun r => bool_decide (p_id r = id))
          (fun r => update_updated_at_column now (apply_profile_patch patch r))
          (profiles w);
  Some (set_profiles tbl w).

(** ** The client *)

Inductive Toast := Success | Error.

(** The token the client sends: the session's when [user] is set, the
    anonymous key's otherwise. *)
Definition client_caller (user : option uuid) : Caller :=
  match user with
  | Some u => session u
  | None => anonymous
  end.

(** [updateUserRole] of the admin panel; [clock] is the client's
    [new Date()]. *)
Definition updateUserRole (user : option uuid) (userId : uuid) (newRole : string)
    (clock now : timestamp) (w : World) : World * Toast :=
  let patch := {| set_email := None; set_full_name := None;
                  set_role := Some newRole; set_updated_at := Some clock |} in
  match profiles_update (client_caller user) userId patch now w with
  | Some w' => (w', Success)
  | None => (w, Error)
  end.

(** The admin panel shows its controls when the caller's own profile has the
    role ['admin']. *)
Definition isAdmin (user : option uuid) (users : list Profile) : bool :=
  match find (fun u => bool_decide (Some (p_id u) = user)) users with
  | Some currentUserProfile => bool_decide (p_role currentUserProfile = "admin")
  | None => false
  end.

(** ** Jobs *)

(** [insert] into [jobs]: the INSERT policy, the primary key, the foreign
    key of [created_by] and the two CHECK constraints.  [j_id row] is the
    value [gen_random_uuid()] gave when the request names none. *)
Definition jobs_insert (c : Caller) (row : Job) (w : World) : option World :=
  if Rls.may_insert jobs_policies c row
     && bool_decide (j_id row ∉ map j_id (jobs w))
     && references (j_created_by row) (map p_id (profiles w))
     && check_in (j_priority row) ["low"; "medium"; "high"]
     && check_in (j_status row) ["pending"; "in-progress"; "completed"]
  then Some (set_jobs (jobs w ++ [row]) w)
  else None.

(** [a || b] on strings: the empty string is falsy. *)
Definition js_or (a b : string) : string :=
  match a with EmptyString => b | _ => a end.

(** The form of the create dialog. *)
Record JobForm := {
  form_name : string;
  form_description : string;
  form_client_name : string;
  form_priority : string;
}.

(** The row [createJob] sends; [user?.id] of a signed-out client is
    [undefined] and the column is left NULL. *)
Definition createJob_row (user : option uuid) (form : JobForm) (new_id : uuid) : Job :=
  {| j_id := new_id;
     j_name := form_name form;
     j_description := Some (form_description form);
     j_created_by := user;
     j_thumbnail := None;
     j_priority := Some (js_or (form_priority form) "medium");
     j_status := Some "pending";
     j_client_name := Some (form_client_name form) |}.

(** A Postgres [text] holds no U+0000: a request that carries one in a text
    value is refused. *)
Fixpoint storable (s : string) : bool :=
  match s with
  | EmptyString => true
  | String c rest => negb (Ascii.eqb c Ascii.zero) && storable rest
  end.

Definition createJob (user : option uuid) (form : JobForm) (new_id : uuid)
    (w : World) : World * Toast :=
  if storable (form_name form) && storable (form_description form)
     && storable (form_client_name form) && storable (form_priority form)
  then match jobs_insert (client_caller user) (createJob_row user form new_id) w with
       | Some w' => (w', Success)
       | None => (w, Error)
       end
  else (w, Error).

(** [delete] on [jobs] by id; [job_files.job_id] is declared ON DELETE
    CASCADE, so the files of a removed job go with it, whoever uploaded
    them. Nothing here touches the object store. *)
Definition jobs_delete (c : Caller) (jobId : uuid) (w : World) : World :=
  let by_id := fun j => bool_decide (j_id j = jobId) in
  let gone := map j_id (Rls.deleted jobs_policies c by_id (jobs w)) in
  let kept_files :=
    List.filter (fun f => match f_job_id f with
                     | Some j => negb (bool_decide (j ∈ gone))
                     | None => true
                     end) (job_files w) in
  set_job_files kept_files (set_jobs (Rls.delete jobs_policies c by_id (jobs w)) w).

(** [deleteJob] called with an id as the database prints it (the [job.id]
    of a fetched row): the text is a uuid in its canonical spelling, so the
    request is well-formed and its error branch is not taken.  For any other
    argument text see [deleteJob_text] below. *)
Definition deleteJob (user : option uuid) (jobId : uuid) (w : World) : World * Toast :=
  (jobs_delete (client_caller user) jobId w, Success).

(** ** The object store *)

Definition object_row (path : string) : StorageObject :=
  {| o_bucket_id := "job-files"; o_name := path |}.

(** [storage.from('job-files').upload(path, file)]: the INSERT policy, and
    no overwrite of an existing object. *)
Definition storage_upload (c : Caller) (path : string) (content : blob)
    (objs : gmap string blob) : option (gmap string blob) :=
  if Rls.may_insert storage_objects_policies c (object_row path)
  then match objs !! path with
       | None => Some (<[path := content]> objs)
       | Some _ => None
       end
  else None.

(** [storage.from('job-files').download(path)]. *)
Definition storage_download (c : Caller) (path : string)
    (objs : gmap string blob) : option blob :=
  if Rls.passes storage_objects_policies SELECT c (object_row path)
  then objs !! path
  else None.

(** [storage.from('job-files').remove(paths)]: a delete on
    [storage.objects] under the caller's policies; the objects that do not
    pass stay, and the call reports no error for them. *)
Definition storage_remove (c : Caller) (paths : list string)
    (objs : gmap string blob) : gmap string blob :=
  foldr (fun p acc =>
           if Rls.may_delete storage_objects_policies c (object_row p)
           then delete p acc else acc)
        objs paths.

(** ** Job files *)

(** A browser [File]. *)
Record File := {
  file_name : string;
  file_type : string;
  file_size : Z;
  file_bytes : blob;
}.

(** What the runtime hands out while one row is built: [Date.now()],
    [Math.random().toString(36).substring(2)] and the [gen_random_uuid()]
    of the row. *)
Record Draw := {
  date_now : N;
  random36 : string;
  row_id : uuid;
}.

Definition to_lower_ascii (c : ascii) : ascii :=
  let n := nat_of_ascii c in
  if (65 <=? n)%nat && (n <=? 90)%nat then ascii_of_nat (n + 32) else c.

(** [s.toLowerCase()] on text whose cased letters are ASCII: the letters A
    to Z are folded, every other byte is kept.  (JavaScript also folds the
    cased letters outside ASCII.) *)
Fixpoint toLowerCase (s : string) : string :=
  match s with
  | EmptyString => EmptyString
  | String c rest => String (to_lower_ascii c) (toLowerCase rest)
  end.

(** [s.includes(needle)]. *)
Definition includes (s needle : string) : bool :=
  match String.index 0 needle s with
  | Some _ => true
  | None => false
  end.

(** [file.name.split('.').pop()]. *)
Definition fileExt (file : File) : option string :=
  js_pop (split_on "." (file_name file)).

Definition upload_fileName (file : File) (d : Draw) : string :=
  pretty (date_now d) +:+ "-" +:+ random36 d +:+ "." +:+ js_show (fileExt file).

(** [`${jobId}/${fileName}`]. *)
Definition upload_filePath (jobId : uuid) (file : File) (d : Draw) : string :=
  jobId +:+ "/" +:+ upload_fileName file d.

Definition isPresentation (file : File) : bool :=
  includes (toLowerCase (file_name file)) "presentation"
  || includes (file_type file) "presentation"
  || bool_decide (toLowerCase <$> fileExt file = Some "pptx")
  || bool_decide (toLowerCase <$> fileExt file = Some "ppt").

(** [insert] into [job_files]: the INSERT policy, the primary key and the
    two foreign keys. *)
Definition job_files_insert (c : Caller) (row : JobFile) (w : World) : option World :=
  if Rls.may_insert job_files_policies c row
     && bool_decide (f_id row ∉ map f_id (job_files w))
     && references (f_job_id row) (map j_id (jobs w))
     && references (f_uploaded_by row) (map p_id (profiles w))
  then Some (set_job_files (job_files w ++ [row]) w)
  else None.

Definition upload_row (user : option uuid) (jobId : uuid) (file : File) (d : Draw)
    : JobFile :=
  {| f_id := row_id d;
     f_job_id := Some jobId;
     f_file_name := file_name file;
     f_file_path := upload_filePath jobId file d;
     f_file_type := js_or (file_type file) "application/octet-stream";
     f_file_size := file_size file;
     f_is_presentation := Some (isPresentation file);
     f_uploaded_by := user |}.

(** The loop of [handleFileUpload]: the first error leaves the loop, and
    what earlier iterations stored stays. *)
Fixpoint upload_loop (user : option uuid) (jobId : uuid)
    (selectedFiles : list (File * Draw)) (w : World) : World * Toast :=
  match selectedFiles with
  | [] => (w, Success)
  | (file, d) :: rest =>
      let c := client_caller user in
      match storage_upload c (upload_filePath jobId file d) (file_bytes file) (objects w) with
      | None => (w, Error)
      | Some objs =>
          let w1 := set_objects objs w in
          match job_files_insert c (upload_row user jobId file d) w1 with
          | None => (w1, Error)
          | Some w2 => upload_loop user jobId rest w2
          end
      end
  end.

(** [handleFileUpload]; an empty selection returns at once, without a
    toast. *)
Definition handleFileUpload (user : option uuid) (jobId : uuid)
    (selectedFiles : list (File * Draw)) (w : World) : World * option Toast :=
  match selectedFiles with
  | [] => (w, None)
  | _ => let (w', t) := upload_loop user jobId selectedFiles w in (w', Some t)
  end.

(** [deleteFile]: the object first, then the row; [confirmed] is the
    answer to the confirm dialog. *)
Definition deleteFile (user : option uuid) (file : JobFile) (confirmed : bool)
    (w : World) : World * option Toast :=
  if negb confirmed then (w, None)
  else
    let c := client_caller user in
    let w1 := set_objects (storage_remove c [f_file_path file] (objects w)) w in
    let w2 := set_job_files
                (Rls.delete job_files_policies c
                   (fun r => bool_decide (f_id r = f_id file)) (job_files w1)) w1 in
    (w2, Some Success).

(** [downloadFile], up to the bytes it receives. *)
Definition downloadFile (user : option uuid) (file : JobFile) (w : World)
    : option blob :=
  storage_download (client_caller user) (f_file_path file) (objects w).

(** ** File versions *)

(** The state of one mounted [FileCollaboration] component. *)
Record Collab := {
  fileId : uuid;
  collab_user : option uuid;
  versions : list FileVersion;
}.

Definition set_versions (x : list FileVersion) (cl : Collab) : Collab :=
  {| fileId := fileId cl; collab_user := collab_user cl; versions := x |}.

Fixpoint insert_desc (v : FileVersion) (l : list FileVersion) : list FileVersion :=
  match l with
  | [] => [v]
  | x :: xs =>
      if (v_version_number x <=? v_version_number v)%Z then v :: l
      else x :: insert_desc v xs
  end.

(** [.order('version_number', { ascending: false })]. *)
Definition order_desc (l : list FileVersion) : list FileVersion :=
  foldr insert_desc [] l.

(** The rows of [file_versions] for one file, as a caller sees them. *)
Definition select_versions (c : Caller) (file_id : uuid) (w : World)
    : list FileVersion :=
  order_desc (Rls.select file_versions_policies c
                (fun r => bool_decide (v_file_id r = file_id)) (file_versions w)).

(** [fetchVersions]: [setVersions(data || [])]. *)
Definition fetchVersions (cl : Collab) (w : World) : Collab :=
  set_versions (select_versions (client_caller (collab_user cl)) (fileId cl) w) cl.

(** [insert] into [file_versions]: the INSERT policy and the primary key;
    the table has no other unique constraint and no foreign key. *)
Definition file_versions_insert (c : Caller) (row : FileVersion) (w : World)
    : option World :=
  if Rls.may_insert file_versions_policies c row
     && bool_decide (v_id row ∉ map v_id (file_versions w))
  then Some (set_file_versions (file_versions w ++ [row]) w)
  else None.

(** [`${fileId}/versions/${fileId}_v${versions.length + 1}.${fileExt}`]. *)
Definition version_filePath (cl : Collab) (file : File) : string :=
  let fileName := fileId cl +:+ "_v" +:+ pretty (length (versions cl) + 1)%nat
                  +:+ "." +:+ js_show (fileExt file) in
  fileId cl +:+ "/versions/" +:+ fileName.

Definition version_row (cl : Collab) (file : File) (changelog : string)
    (new_id : uuid) : FileVersion :=
  {| v_id := new_id;
     v_file_id := fileId cl;
     v_version_number := Z.of_nat (length (versions cl)) + 1;
     v_file_path := version_filePath cl file;
     v_file_size := file_size file;
     v_changelog := Some changelog;
     v_created_by := collab_user cl |}.

(** [createNewVersion]: upload, then insert.  The [fetchVersions()] at its
    end is not awaited: it only starts a request, and [versions] is what it
    was until the answer arrives (a [Fetch] event below), which it may never
    do, since [fetchVersions] swallows its error.  So the component comes
    back as it went in. *)
Definition createNewVersion (cl : Collab) (file : File) (changelog : string)
    (new_id : uuid) (w : World) : World * Collab * Toast :=
  let c := client_caller (collab_user cl) in
  match storage_upload c (version_filePath cl file) (file_bytes file) (objects w) with
  | None => (w, cl, Error)
  | Some objs =>
      let w1 := set_objects objs w in
      match file_versions_insert c (version_row cl file changelog new_id) w1 with
      | None => (w1, cl, Error)
      | Some w2 => (w2, cl, Success)
      end
  end.

(** The version numbers stored for a file, in insertion order. *)
Definition version_numbers (file_id : uuid) (w : World) : list Z :=
  map v_version_number
      (List.filter (fun r => bool_decide (v_file_id r = file_id)) (file_versions w)).

(** *** Creation in turn by one component: each call starts when the
    previous one is over and the answer to the refresh it started has
    arrived. *)
Fixpoint create_in_turn (cl : Collab) (reqs : list (File * string * uuid))
    (w : World) : World * Collab * list Toast :=
  match reqs with
  | [] => (w, cl, [])
  | (file, changelog, new_id) :: rest =>
      let '(w1, cl1, t) := createNewVersion cl file changelog new_id w in
      let refreshed := match t with
                       | Success => fetchVersions cl1 w1
                       | Error => cl1
                       end in
      let '(w2, cl2, ts) := create_in_turn refreshed rest w1 in
      (w2, cl2, t :: ts)
  end.

(** *** Concurrent creation: several mounted components over one store,
    their requests taken in any order. *)
Inductive Event :=
  | Fetch (i : nat)
  | Create (i : nat) (file : File) (changelog : string) (new_id : uuid).

Definition step (st : World * list Collab) (ev : Event) : World * list Collab :=
  let (w, cls) := st in
  match ev with
  | Fetch i =>
      match cls !! i with
      | Some cl => (w, <[i := fetchVersions cl w]> cls)
      | None => st
      end
  | Create i file changelog new_id =>
      match cls !! i with
      | Some cl =>
          let '(w', cl', _) := createNewVersion cl file changelog new_id w in
          (w', <[i := cl']> cls)
      | None => st
      end
  end.

Definition run (evs : list Event) (st : World * list Collab) : World * list Collab :=
  foldl step st evs.

(** ** A small office, built through the operations above *)

Module Office.

Definition alice : uuid := "a11ce000-0000-4000-8000-000000000001".
Definition bob : uuid := "b0b00000-0000-4000-8000-000000000002".

(** Alice signs up with an address of the allowlist, Bob with another. *)
Definition alice_user : AuthUser :=
  {| u_id := alice; u_email := Some "chuck@curryhhi.com";
     u_meta_full_name := Some "Chuck" |}.

Definition bob_user : AuthUser :=
  {| u_id := bob; u_email := Some "bob@example.com"; u_meta_full_name := None |}.

Definition staff : World :=
  default empty_world (sign_up alice_user 1 empty_world ≫= sign_up bob_user 2).

(** The office when only Alice has signed up. *)
Definition only_alice : World :=
  default empty_world (sign_up alice_user 1 empty_world).

Definition bob_profile : Profile :=
  {| p_id := bob; p_email := "bob@example.com"; p_full_name := "bob@example.com";
     p_role := "user"; p_created_at := 2; p_updated_at := 2 |}.

Definition banner_job : uuid := "70b00000-0000-4000-8000-00000000000a".

Definition banner_form : JobForm :=
  {| form_name := "Banner"; form_description := "Outdoor banner";
     form_client_name := "ACME"; form_priority := "" |}.

(** A job row that names Bob as its creator. *)
Definition job_in_bobs_name : Job :=
  {| j_id := banner_job; j_name := "Banner"; j_description := None;
     j_created_by := Some bob; j_thumbnail := None; j_priority := None;
     j_status := None; j_client_name := None |}.

Definition alice_template : Template :=
  {| t_id := "7e000000-0000-4000-8000-00000000000b"; t_name := "Vehicle Wrap";
     t_description := None; t_thumbnail := None; t_template_data := None;
     t_category := Some "vehicle"; t_is_public := Some false;
     t_created_by := Some alice |}.

Definition logo_png : File :=
  {| file_name := "logo.final.png"; file_type := "image/png"; file_size := 3;
     file_bytes := [Byte.x89; Byte.x50; Byte.x4e] |}.

Definition logo_pdf : File :=
  {| file_name := "logo.pdf"; file_type := "application/pdf"; file_size := 2;
     file_bytes := [Byte.x25; Byte.x50] |}.

Definition logo_draw : Draw :=
  {| date_now := 1757102403000%N; random36 := "k3j2h1x9";
     row_id := "f11e0000-0000-4000-8000-00000000000c" |}.

(** Alice creates the banner job and uploads one file to it. *)
Definition with_job : World := fst (createJob (Some alice) banner_form banner_job staff).

Definition with_file : World :=
  fst (handleFileUpload (Some alice) banner_job [(logo_png, logo_draw)] with_job).

Definition logo_row : JobFile := upload_row (Some alice) banner_job logo_png logo_draw.

(** Alice and Bob each have the collaboration panel of the logo open. *)
Definition logo_id : uuid := row_id logo_draw.

Definition panel (u : uuid) : Collab :=
  {| fileId := logo_id; collab_user := Some u; versions := [] |}.

Definition race : list Event :=
  [Fetch 0; Fetch 1;
   Create 0 logo_png "sharper" "5e000000-0000-4000-8000-00000000000d";
   Create 1 logo_pdf "print" "5e000000-0000-4000-8000-00000000000e"].

Definition in_turn : list (File * string * uuid) :=
  [(logo_png, "sharper", "5e000000-0000-4000-8000-00000000000d");
   (logo_pdf, "print", "5e000000-0000-4000-8000-00000000000e");
   (logo_png, "final", "5e000000-0000-4000-8000-00000000000f")].

End Office.

(** [s] has no character [c]. *)
Fixpoint lacks (c : ascii) (s : string) : bool :=
  match s with
  | EmptyString => true
  | String x rest => negb (Ascii.eqb x c) && lacks c rest
  end.

(** ** Further client functions and policies *)

(** *** Jobs: updates *)

(** The columns an [update({...})] on [jobs] names, each with the non-null
    value it gives. *)
Record JobPatch := {
  upd_name : option string;
  upd_description : option string;
  upd_client_name : option string;
  upd_priority : option string;
  upd_status : option string;
  upd_created_by : option uuid;
}.

Definition apply_job_patch (patch : JobPatch) (r : Job) : Job :=
  {| j_id := j_id r;
     j_name := default (j_name r) (upd_name patch);
     j_description :=
       match upd_description patch with Some v => Some v | None => j_description r end;
     j_created_by :=
       match upd_created_by patch with Some v => Some v | None => j_created_by r end;
     j_thumbnail := j_thumbnail r;
     j_priority :=
       match upd_priority patch with Some v => Some v | None => j_priority r end;
     j_status :=
       match upd_status patch with Some v => Some v | None => j_status r end;
     j_client_name :=
       match upd_client_name patch with Some v => Some v | None => j_client_name r end |}.

(** What an updated row of [jobs] must satisfy: the two CHECK constraints,
    and the foreign key of [created_by] when the update names the column. *)
Definition job_row_ok (w : World) (patch : JobPatch) (r : Job) : bool :=
  check_in (j_priority r) ["low"; "medium"; "high"]
  && check_in (j_status r) ["pending"; "in-progress"; "completed"]
  && match upd_created_by patch with
     | Some k => bool_decide (k ∈ map p_id (profiles w))
     | None => true
     end.

(** [from('jobs').update(patch).eq('id', jobId)]: a patched row that breaks
    a constraint or fails the policy aborts the statement. *)
Definition jobs_update (c : Caller) (jobId : uuid) (patch : JobPatch) (w : World)
    : option World :=
  let by_id := fun r => bool_decide (j_id r = jobId) in
  let touched :=
    List.filter (fun r => by_id r && Rls.may_update jobs_policies c r) (jobs w) in
  if forallb (fun r => job_row_ok w patch (apply_job_patch patch r)) touched
  then tbl ← Rls.update jobs_policies c by_id (apply_job_patch patch) (jobs w);
       Some (set_jobs tbl w)
  else None.

(** The form of the edit dialog. *)
Record JobEditForm := {
  edit_name : string;
  edit_description : string;
  edit_client_name : string;
  edit_priority : string;
  edit_status : string;
}.

Definition updateJob_patch (form : JobEditForm) : JobPatch :=
  {| upd_name := Some (edit_name form);
     upd_description := Some (edit_description form);
     upd_client_name := Some (edit_client_name form);
     upd_priority := Some (edit_priority form);
     upd_status := Some (edit_status form);
     upd_created_by := None |}.

(** [updateJob]: without a job being edited it returns at once. *)
Definition updateJob (user : option uuid) (editingJob : option Job)
    (form : JobEditForm) (w : World) : World * option Toast :=
  match editingJob with
  | None => (w, None)
  | Some job =>
      match jobs_update (client_caller user) (j_id job) (updateJob_patch form) w with
      | Some w' => (w', Some Success)
      | None => (w, Some Error)
      end
  end.

(** [filteredJobs] of the dashboard; a [?.] on a NULL column gives
    [undefined], which counts as false. *)
Definition filteredJobs (jobs_ : list Job) (searchTerm statusFilter : string)
    : list Job :=
  List.filter
    (fun job =>
       let matchesSearch :=
         includes (toLowerCase (j_name job)) (toLowerCase searchTerm)
         || default false
              ((fun d => includes (toLowerCase d) (toLowerCase searchTerm))
                 <$> j_description job)
         || default false
              ((fun n => includes (toLowerCase n) (toLowerCase searchTerm))
                 <$> j_client_name job) in
       let matchesStatus :=
         bool_decide (statusFilter = "all")
         || bool_decide (j_status job = Some statusFilter) in
       matchesSearch && matchesStatus)
    jobs_.

(** *** Job files: the presentation mark *)

Definition with_is_presentation (b : bool) (r : JobFile) : JobFile :=
  {| f_id := f_id r; f_job_id := f_job_id r; f_file_name := f_file_name r;
     f_file_path := f_file_path r; f_file_type := f_file_type r;
     f_file_size := f_file_size r; f_is_presentation := Some b;
     f_uploaded_by := f_uploaded_by r |}.

(** [!v] on a nullable boolean: NULL is falsy. *)
Definition js_not (v : option bool) : bool := negb (default false v).

(** [togglePresentation]: [update({ is_presentation: !file.is_presentation })]
    on the row with the file's id; [file] is the row as the client last
    fetched it. *)
Definition togglePresentation (user : option uuid) (file : JobFile) (w : World)
    : World * Toast :=
  match Rls.update job_files_policies (client_caller user)
          (fun r => bool_decide (f_id r = f_id file))
          (with_is_presentation (js_not (f_is_presentation file)))
          (job_files w) with
  | Some tbl => (set_job_files tbl w, Success)
  | None => (w, Error)
  end.

(** *** Profiles: the account page and the admin panel's delete *)


(** [delete] on [profiles] by id.  [jobs.created_by] and
    [job_files.uploaded_by] are declared ON DELETE CASCADE, and so is
    [job_files.job_id]: what hangs on a removed profile goes with it. *)
Definition profiles_delete (c : Caller) (userId : uuid) (w : World) : World :=
  let by_id := fun p => bool_decide (p_id p = userId) in
  let gone := map p_id (Rls.deleted profiles_policies c by_id (profiles w)) in
  let hangs_on (keys : list uuid) (fk : option uuid) : bool :=
    match fk with
    | Some k => bool_decide (k ∈ keys)
    | None => false
    end in
  let gone_jobs :=
    map j_id (List.filter (fun j => hangs_on gone (j_created_by j)) (jobs w)) in
  let kept_jobs := List.filter (fun j => negb (hangs_on gone (j_created_by j))) (jobs w) in
  let kept_files :=
    List.filter (fun f => negb (hangs_on gone (f_uploaded_by f))
                          && negb (hangs_on gone_jobs (f_job_id f))) (job_files w) in
  set_job_files kept_files
    (set_jobs kept_jobs
       (set_profiles (Rls.delete profiles_policies c by_id (profiles w)) w)).

(** [deleteUser] of the admin panel. *)
Definition deleteUser (user : option uuid) (userId : uuid) (w : World) : World * Toast :=
  (profiles_delete (client_caller user) userId w, Success).

(** Sign-ups one after the other; a refused one leaves the state as it
    was. *)
Definition sign_ups (reqs : list (AuthUser * timestamp)) (w : World) : World :=
  foldl (fun w req => default w (sign_up (fst req) (snd req) w)) w reqs.

(** *** Templates *)

Definition set_project_templates (x : list Template) (w : World) : World :=
  {| auth_users := auth_users w; profiles := profiles w; jobs := jobs w;
     job_files := job_files w; project_templates := x;
     file_comments := file_comments w; file_versions := file_versions w;
     objects := objects w |}.

(** [insert] into [project_templates]: the INSERT policy and the primary
    key; [created_by] has no foreign key here. *)
Definition project_templates_insert (c : Caller) (row : Template) (w : World)
    : option World :=
  if Rls.may_insert project_templates_policies c row
     && bool_decide (t_id row ∉ map t_id (project_templates w))
  then Some (set_project_templates (project_templates w ++ [row]) w)
  else None.

Record TemplateForm := {
  tform_name : string;
  tform_description : string;
  tform_category : string;
}.

(** The row [createTemplate] sends; [payload] is the constant
    [template_data] object of the function, in its JSON text. *)
Definition createTemplate_row (user : option uuid) (form : TemplateForm)
    (payload : string) (new_id : uuid) : Template :=
  {| t_id := new_id;
     t_name := tform_name form;
     t_description := Some (tform_description form);
     t_thumbnail := None;
     t_template_data := Some payload;
     t_category := Some (tform_category form);
     t_is_public := Some true;
     t_created_by := user |}.

Definition createTemplate (user : option uuid) (form : TemplateForm)
    (payload : string) (new_id : uuid) (w : World) : World * Toast :=
  match project_templates_insert (client_caller user)
          (createTemplate_row user form payload new_id) w with
  | Some w' => (w', Success)
  | None => (w, Error)
  end.

(** [useTemplate]: a new job named after the template. *)
Definition useTemplate_row (user : option uuid) (template : Template) (new_id : uuid)
    : Job :=
  {| j_id := new_id;
     j_name := t_name template +:+ " - Copy";
     j_description := t_description template;
     j_created_by := user;
     j_thumbnail := None;
     j_priority := Some "medium";
     j_status := Some "pending";
     j_client_name := None |}.

Definition useTemplate (user : option uuid) (template : Template) (new_id : uuid)
    (w : World) : World * Toast :=
  match jobs_insert (client_caller user) (useTemplate_row user template new_id) w with
  | Some w' => (w', Success)
  | None => (w, Error)
  end.

(** *** Notifications *)

Record Notification := {
  n_id : uuid;
  n_user_id : uuid;
  n_title : string;
  n_message : string;
  n_type : option string;
  n_read : option bool;
}.

Definition notifications_policies : list (Policy Notification) := [
  {| pol_name := "Users can view their own notifications"; pol_cmd := SELECT;
     pol_expr := fun c r => Sql.eq (auth_uid c) (Some (n_user_id r)) |};
  {| pol_name := "System can create notifications"; pol_cmd := INSERT;
     pol_expr := fun _ _ => Some true |};
  {| pol_name := "Users can update their own notifications"; pol_cmd := UPDATE;
     pol_expr := fun c r => Sql.eq (auth_uid c) (Some (n_user_id r)) |}
].

(** *** The text of a uuid *)

(** [isxdigit] in the C locale. *)
Definition is_xdigit (c : ascii) : bool :=
  let n := nat_of_ascii c in
  ((48 <=? n)%nat && (n <=? 57)%nat)
  || ((97 <=? n)%nat && (n <=? 102)%nat)
  || ((65 <=? n)%nat && (n <=? 70)%nat).

(** The loop of Postgres's [string_to_uuid] over the sixteen bytes: two
    hexadecimal digits each, and a hyphen is skipped after a byte of odd
    index that is not the last.  [todo] bytes are still to be read, [i] is
    the index of the next one.  The result is the digits read, in lower
    case, and the text left over. *)
Fixpoint uuid_bytes (todo i : nat) (src : string) : option (string * string) :=
  match todo with
  | O => Some (EmptyString, src)
  | S todo' =>
      match src with
      | String a (String b rest) =>
          if is_xdigit a && is_xdigit b then
            let rest' :=
              match rest with
              | String "-" after => if Nat.odd i && (i <? 15)%nat then after else rest
              | _ => rest
              end in
            match uuid_bytes todo' (S i) rest' with
            | Some (digits, tail_) =>
                Some (String (to_lower_ascii a) (String (to_lower_ascii b) digits), tail_)
            | None => None
            end
          else None
      | _ => None
      end
  end.

(** [uuid_out]: the 32 digits in groups of 8, 4, 4, 4 and 12. *)
Definition uuid_out (digits : string) : uuid :=
  substring 0 8 digits +:+ "-" +:+ substring 8 4 digits +:+ "-"
  +:+ substring 12 4 digits +:+ "-" +:+ substring 16 4 digits +:+ "-"
  +:+ substring 20 12 digits.

(** [uuid_in] of Postgres, which reads the text of a request's
    [.eq('id', ...)] filter on a uuid column: upper-case digits, missing
    hyphens and a pair of braces around the whole are accepted, anything
    else is a syntax error ([None]).  The value is given in the spelling
    the database prints. *)
Definition uuid_in (source : string) : option uuid :=
  let '(braces, src) :=
    match source with
    | String "{" after => (true, after)
    | _ => (false, source)
    end in
  match uuid_bytes 16 0 src with
  | Some (digits, tail_) =>
      if bool_decide (tail_ = if braces then "}" else "")
      then Some (uuid_out digits)
      else None
  | None => None
  end.

(** [deleteJob] on any argument text: text that is no uuid makes the
    request fail, and the catch branch toasts an error; text that is one,
    in whatever spelling, deletes by the uuid it stands for. *)
Definition deleteJob_text (user : option uuid) (jobId : string) (w : World)
    : World * Toast :=
  match uuid_in jobId with
  | Some id => deleteJob user id w
  | None => (w, Error)
  end.

(** Every character of [s] is a 7-bit ASCII character. *)
Fixpoint seven_bit (s : string) : bool :=
  match s with
  | EmptyString => true
  | String c rest => (nat_of_ascii c <? 128)%nat && seven_bit rest
  end.

(** *** A desk next to the office *)

Module Desk.

(** Bob uploads a sketch to Alice's banner job. *)
Definition sketch : File :=
  {| file_name := "Sketch.PPTX"; file_type := ""; file_size := 2;
     file_bytes := [Byte.x50; Byte.x4b] |}.

Definition sketch_draw : Draw :=
  {| date_now := 1757102409000%N; random36 := "p0q9r8s7";
     row_id := "f11e0000-0000-4000-8000-00000000001c" |}.

Definition shared : World :=
  fst (handleFileUpload (Some Office.bob) Office.banner_job [(sketch, sketch_draw)]
         Office.with_file).

Definition sketch_row : JobFile :=
  upload_row (Some Office.bob) Office.banner_job sketch sketch_draw.

Definition banner : Job :=
  createJob_row (Some Office.alice) Office.banner_form Office.banner_job.

Definition done_form : JobEditForm :=
  {| edit_name := "Banner"; edit_description := "Outdoor banner";
     edit_client_name := "ACME"; edit_priority := "high";
     edit_status := "completed" |}.


(** Alice and Bob open the panel of the logo and fetch its (empty) version
    list.  Alice creates a version and her refresh arrives.  Only then does
    Bob create one, from the list he fetched at the start. *)
Definition alice_first : list Event :=
  [Fetch 0; Fetch 1;
   Create 0 Office.logo_png "sharper" "5e000000-0000-4000-8000-00000000000d";
   Fetch 0].

Definition bob_next : Event :=
  Create 1 Office.logo_pdf "print" "5e000000-0000-4000-8000-00000000000e".

Definition panels : list Collab := [Office.panel Office.alice; Office.panel Office.bob].

(** The banner job's id in another spelling. *)
Definition banner_job_upper : string := "70B00000-0000-4000-8000-00000000000A".

End Desk.

(** The component's list of versions is what a fetch would return now. *)
Definition up_to_date (cl : Collab) (w : World) : Prop :=
  versions cl = select_versions (client_caller (collab_user cl)) (fileId cl) w.

(** * Properties *)

(** ** SQL expressions *)

Lemma holds_eq (a b : option string) :
  Sql.holds (Sql.eq a b) = true <-> exists x, a = Some x /\ b = Some x.
Proof.
  destruct a as [x|], b as [y|]; simpl.
  - case_bool_decide; split; try done.
    + intros _. subst. eauto.
    + intros (z & [= ->] & [= ->]). done.
  - split; [done | by intros (z & _ & ?)].
  - split; [done | by intros (z & ? & _)].
  - split; [done | by intros (z & ? & _)].
Qed.

Lemma holds_authenticated (c : Caller) :
  Sql.holds (authenticated c) = true <-> auth_role c = "authenticated".
Proof.
  unfold authenticated. rewrite holds_eq. split.
  - by intros (x & [= ->] & [= <-]).
  - intros ->. eauto.
Qed.

Lemma holds_and (a b : Sql.sqlbool) :
  Sql.holds (Sql.and a b) = Sql.holds a && Sql.holds b.
Proof. by destruct a as [[]|], b as [[]|]. Qed.

Lemma holds_or (a b : Sql.sqlbool) :
  Sql.holds (Sql.or a b) = Sql.holds a || Sql.holds b.
Proof. by destruct a as [[]|], b as [[]|]. Qed.

(** The shape of every owner policy, for a signed-in caller. *)
Lemma owner_passes (c : Caller) (u : uuid) (owner : option uuid) :
  auth_role c = "authenticated" ->
  auth_uid c = Some u ->
  Sql.holds (authenticated c) && Sql.holds (Sql.eq (auth_uid c) owner) = true
  <-> owner = Some u.
Proof.
  intros Hrole Huid. apply holds_authenticated in Hrole.
  rewrite Hrole, andb_true_l, holds_eq, Huid. split.
  - by intros (x & [= ->] & ->).
  - intros ->. eauto.
Qed.

Lemma session_authenticated (u : uuid) : Sql.holds (authenticated (session u)) = true.
Proof. reflexivity. Qed.

(** ** The engine on a table *)

Section EngineFacts.
Context {R : Type}.
Variable ps : list (Policy R).

Lemma elem_of_select c f (tbl : list R) r :
  r ∈ Rls.select ps c f tbl <-> r ∈ tbl /\ f r = true /\ Rls.passes ps SELECT c r = true.
Proof.
  unfold Rls.select. rewrite !list_elem_of_In, filter_In, andb_true_iff. tauto.
Qed.

Lemma elem_of_delete c f (tbl : list R) r :
  r ∈ Rls.delete ps c f tbl <->
  r ∈ tbl /\ (f r = false \/ Rls.may_delete ps c r = false).
Proof.
  unfold Rls.delete.
  rewrite !list_elem_of_In, filter_In, negb_true_iff, andb_false_iff. tauto.
Qed.

Lemma elem_of_deleted c f (tbl : list R) r :
  r ∈ Rls.deleted ps c f tbl <-> r ∈ tbl /\ f r = true /\ Rls.may_delete ps c r = true.
Proof.
  unfold Rls.deleted. rewrite !list_elem_of_In, filter_In, andb_true_iff. tauto.
Qed.

(** Without a DELETE policy a delete request removes nothing. *)
Lemma delete_nothing c f (tbl : list R) :
  (forall r, Rls.passes ps DELETE c r = false) -> Rls.delete ps c f tbl = tbl.
Proof.
  intros Hno. unfold Rls.delete, Rls.may_delete.
  induction tbl as [|r tbl IH]; simpl; [done|].
  rewrite (Hno r), andb_false_r, andb_false_r. simpl. by rewrite IH.
Qed.

(** Without an UPDATE policy an update request changes nothing. *)
Lemma update_nothing c f patch (tbl : list R) :
  (forall r, Rls.passes ps UPDATE c r = false) -> Rls.update ps c f patch tbl = Some tbl.
Proof.
  intros Hno. unfold Rls.update, Rls.may_update.
  assert (Hsel : List.filter (fun r => f r && (Rls.passes ps SELECT c r && Rls.passes ps UPDATE c r)) tbl = []).
  { induction tbl as [|r tbl IH]; simpl; [done|].
    by rewrite (Hno r), !andb_false_r. }
  rewrite Hsel. simpl. f_equal.
  induction tbl as [|r tbl IH]; simpl; [done|].
  rewrite (Hno r), !andb_false_r. f_equal. apply IH.
  simpl in Hsel. by rewrite (Hno r), !andb_false_r in Hsel.
Qed.

End EngineFacts.

(** ** What each table's policies come to *)

Lemma jobs_may_delete c j :
  Rls.may_delete jobs_policies c j
  = Sql.holds (authenticated c) && Sql.holds (Sql.eq (auth_uid c) (j_created_by j)).
Proof. unfold Rls.may_delete, Rls.passes. simpl. by rewrite !orb_false_r. Qed.

Lemma job_files_may_delete c f :
  Rls.may_delete job_files_policies c f
  = Sql.holds (authenticated c) && Sql.holds (Sql.eq (auth_uid c) (f_uploaded_by f)).
Proof. unfold Rls.may_delete, Rls.passes. simpl. by rewrite !orb_false_r. Qed.

Lemma file_comments_may_delete c m :
  Rls.may_delete file_comments_policies c m
  = Sql.holds (authenticated c) && Sql.holds (Sql.eq (auth_uid c) (Some (c_user_id m))).
Proof. unfold Rls.may_delete, Rls.passes. simpl. by rewrite !orb_false_r. Qed.

Lemma project_templates_no_delete c t :
  Rls.passes project_templates_policies DELETE c t = false.
Proof. reflexivity. Qed.

Lemma profiles_may_update c r :
  Rls.may_update profiles_policies c r
  = Sql.holds (authenticated c) && Sql.holds (Sql.eq (auth_uid c) (Some (p_id r))).
Proof. unfold Rls.may_update, Rls.passes. simpl. by rewrite !orb_false_r. Qed.

Lemma profiles_passes_update c r :
  Rls.passes profiles_policies UPDATE c r = Sql.holds (Sql.eq (auth_uid c) (Some (p_id r))).
Proof. unfold Rls.passes. simpl. by rewrite !orb_false_r. Qed.

Lemma jobs_may_insert c j :
  Rls.may_insert jobs_policies c j = Sql.holds (authenticated c).
Proof. unfold Rls.may_insert, Rls.passes. simpl. by rewrite !orb_false_r. Qed.

Lemma templates_passes_select c t :
  Rls.passes project_templates_policies SELECT c t
  = Sql.holds (Sql.is_true (t_is_public t)) || Sql.holds (Sql.eq (auth_uid c) (t_created_by t)).
Proof. unfold Rls.passes. simpl. by rewrite !orb_false_r, holds_or. Qed.

Lemma file_versions_passes c cmd r :
  Rls.passes file_versions_policies cmd c r
  = match cmd with
    | SELECT | INSERT => Sql.holds (authenticated c)
    | UPDATE | DELETE => false
    end.
Proof. unfold Rls.passes. destruct cmd; simpl; by rewrite ?orb_false_r. Qed.

Lemma storage_may_delete c path :
  Rls.may_delete storage_objects_policies c (object_row path)
  = Sql.holds (authenticated c)
    && Sql.holds (Sql.eq (auth_uid c) (sql_first (foldername path))).
Proof.
  unfold Rls.may_delete, Rls.passes.
  cbn -[Sql.and Sql.eq Sql.holds foldername].
  rewrite !orb_false_r, !holds_and. unfold authenticated.
  by destruct (Sql.holds (Sql.eq (Some (auth_role c)) (Some "authenticated"))).
Qed.

Section DeleteFacts.
Context {R : Type}.
Variable ps : list (Policy R).

(** A delete request for a stored row removes it exactly when the row
    passes for the caller. *)
Lemma delete_removes c f (tbl : list R) r :
  r ∈ tbl -> f r = true ->
  (r ∉ Rls.delete ps c f tbl <-> Rls.may_delete ps c r = true).
Proof.
  intros Hin Hf. rewrite elem_of_delete. split.
  - intros Hout. destruct (Rls.may_delete ps c r) eqn:E; [done|].
    exfalso. apply Hout. auto.
  - intros Hmay [_ [Hf' | Hno]]; congruence.
Qed.

End DeleteFacts.

(** ** Deleting rows *)

(** A delete by id of a row that is in the table: what is left to show is
    the policy's answer on that row. *)
Ltac stored_row_delete :=
  rewrite delete_removes by (done || by apply bool_decide_eq_true).

(** C1, as the specification states it, fails on templates: Alice created
    the template, she is signed in, and her delete request leaves the row
    where it is, because [project_templates] has no DELETE policy. *)
Lemma template_owner_cannot_delete :
  auth_uid (session Office.alice) = t_created_by Office.alice_template /\
  Rls.may_delete project_templates_policies (session Office.alice)
    Office.alice_template = false /\
  Rls.delete project_templates_policies (session Office.alice)
    (fun t => bool_decide (t_id t = t_id Office.alice_template))
    [Office.alice_template]
  = [Office.alice_template].
Proof. repeat split. Qed.

(** C1, amended: for an authenticated caller, a delete request for a stored
    Job, JobFile or Comment removes the row exactly when the caller's
    identity equals the row's [created_by], [uploaded_by] or [user_id]; a
    delete request on templates removes no row, for any caller, the
    creator included. *)
Theorem delete_removes_for_owner_only (c : Caller) (u : uuid) :
  auth_role c = "authenticated" ->
  auth_uid c = Some u ->
  (forall (tbl : list Job) j, j ∈ tbl ->
     j ∉ Rls.delete jobs_policies c (fun r => bool_decide (j_id r = j_id j)) tbl
     <-> j_created_by j = Some u) /\
  (forall (tbl : list JobFile) f, f ∈ tbl ->
     f ∉ Rls.delete job_files_policies c (fun r => bool_decide (f_id r = f_id f)) tbl
     <-> f_uploaded_by f = Some u) /\
  (forall (tbl : list FileComment) m, m ∈ tbl ->
     m ∉ Rls.delete file_comments_policies c (fun r => bool_decide (c_id r = c_id m)) tbl
     <-> c_user_id m = u) /\
  (forall (tbl : list Template) flt,
     Rls.delete project_templates_policies c flt tbl = tbl).
Proof.
  intros Hrole Huid.
  repeat split.
  - stored_row_delete. rewrite jobs_may_delete. by apply owner_passes.
  - stored_row_delete. rewrite jobs_may_delete. by apply owner_passes.
  - stored_row_delete. rewrite job_files_may_delete. by apply owner_passes.
  - stored_row_delete. rewrite job_files_may_delete. by apply owner_passes.
  - stored_row_delete.
    rewrite file_comments_may_delete, (owner_passes c u) by done. congruence.
  - stored_row_delete.
    rewrite file_comments_may_delete, (owner_passes c u) by done. congruence.
  - intros tbl flt. apply delete_nothing. apply project_templates_no_delete.
Qed.

Lemma delete_removes_for_owner_only_witness :
  auth_role (session Office.alice) = "authenticated" /\
  auth_uid (session Office.alice) = Some Office.alice /\
  (Office.logo_row ∉ Rls.delete job_files_policies (session Office.alice)
      (fun r => bool_decide (f_id r = f_id Office.logo_row)) [Office.logo_row]
   <-> f_uploaded_by Office.logo_row = Some Office.alice).
Proof.
  split; [reflexivity|]. split; [reflexivity|].
  apply (delete_removes_for_owner_only (session Office.alice) Office.alice);
    [reflexivity | reflexivity | apply list_elem_of_singleton; reflexivity].
Defined.

(** ** Updating profiles *)

Lemma set_profiles_same (w : World) : set_profiles (profiles w) w = w.
Proof. by destruct w. Qed.

(** The patched row keeps its [id], so it passes the UPDATE policy exactly
    when the old row did: [profiles_update] never raises. *)
Lemma profiles_update_closed_form c id patch now w :
  profiles_update c id patch now w
  = Some (set_profiles
            (map (fun r =>
                    if bool_decide (p_id r = id) && Rls.may_update profiles_policies c r
                    then update_updated_at_column now (apply_profile_patch patch r)
                    else r)
                 (profiles w)) w).
Proof.
  unfold profiles_update, Rls.update.
  set (hit := fun r => bool_decide (p_id r = id) && Rls.may_update profiles_policies c r).
  assert (Hall : forallb
            (fun r => Rls.passes profiles_policies UPDATE c
                        (update_updated_at_column now (apply_profile_patch patch r)))
            (List.filter hit (profiles w)) = true).
  { apply forallb_forall. intros r Hr. apply filter_In in Hr as [_ Hr].
    unfold hit in Hr. apply andb_true_iff in Hr as [_ Hr].
    unfold Rls.may_update in Hr. apply andb_true_iff in Hr as [_ Hr].
    by rewrite profiles_passes_update in *. }
  by rewrite Hall.
Qed.

(** C3 on the office: Alice is an admin, so the admin panel is shown to
    her and offers her the role of every other user.  Her [updateUserRole]
    on Bob's row reaches the storage layer, whose only UPDATE policy on
    profiles is [auth.uid() = id]: the row does not pass, nothing changes,
    and the panel reports that the role was updated.  Bob is no admin, yet
    the same request on his own row makes him one. *)
Lemma admin_role_is_not_consulted :
  isAdmin (Some Office.alice) (profiles Office.staff) = true /\
  Rls.may_update profiles_policies (session Office.alice) Office.bob_profile = false /\
  updateUserRole (Some Office.alice) Office.bob "moderator" 9 10 Office.staff
  = (Office.staff, Success) /\
  isAdmin (Some Office.bob) (profiles Office.staff) = false /\
  p_role <$> profiles (fst (updateUserRole (Some Office.bob) Office.bob "admin" 9 10
                              Office.staff))
  = ["admin"; "admin"].
Proof. repeat split; vm_compute; reflexivity. Qed.

(** What the storage layer does with the client's updates on profiles: a
    row passes exactly when the caller is authenticated and the caller's id
    is the row's id, whatever role the caller's own profile has; a request
    patches the rows with the requested id that pass and leaves every other
    row as it is. *)
Lemma profile_update_own_row_only (c : Caller) (id : uuid) (patch : ProfilePatch)
    (now : timestamp) (w : World) :
  (forall r, Rls.may_update profiles_policies c r = true
             <-> auth_role c = "authenticated" /\ auth_uid c = Some (p_id r)) /\
  profiles_update c id patch now w
  = Some (set_profiles
            (map (fun r =>
                    if bool_decide (p_id r = id) && Rls.may_update profiles_policies c r
                    then update_updated_at_column now (apply_profile_patch patch r)
                    else r)
                 (profiles w)) w).
Proof.
  split; [|apply profiles_update_closed_form].
  intros r. rewrite profiles_may_update, andb_true_iff, holds_authenticated, holds_eq.
  split.
  - by intros [? (x & -> & [= ->])].
  - intros [? ->]. eauto.
Qed.

(** ** Inserting jobs *)

(** C4, as the specification states it, fails: Alice's insert of a row
    that names Bob as creator succeeds and stores the row in Bob's name. *)
Lemma job_stored_in_another_name :
  exists w', jobs_insert (session Office.alice) Office.job_in_bobs_name Office.staff
             = Some w' /\
    jobs w' = [Office.job_in_bobs_name] /\
    j_created_by Office.job_in_bobs_name = Some Office.bob /\
    auth_uid (session Office.alice) <> Some Office.bob.
Proof. eexists. repeat split. discriminate. Qed.

Lemma jobs_insert_inv c row w w' :
  jobs_insert c row w = Some w' ->
  Rls.may_insert jobs_policies c row = true /\ w' = set_jobs (jobs w ++ [row]) w.
Proof.
  unfold jobs_insert. intros H.
  destruct (Rls.may_insert jobs_policies c row); [|done].
  split; [done|]. simpl in H.
  destruct (_ && _) in H; congruence.
Qed.

(** C4, amended: the INSERT policy of jobs asks only that the caller be
    authenticated, and a successful insert stores the row with the
    [created_by] the request carries; the storage layer does not force it.
    The client's [createJob] sends the signed-in caller's id, so a job it
    creates is stored with [created_by] equal to the caller's identity. *)
Theorem job_created_by_is_what_the_request_carries :
  (forall c row, Rls.may_insert jobs_policies c row = true
                 <-> auth_role c = "authenticated") /\
  (forall c row w w', jobs_insert c row w = Some w' -> jobs w' = jobs w ++ [row]) /\
  (forall u form new_id w w',
     createJob (Some u) form new_id w = (w', Success) ->
     exists row, jobs w' = jobs w ++ [row] /\
                 j_created_by row = auth_uid (client_caller (Some u))).
Proof.
  repeat split.
  - rewrite jobs_may_insert. apply holds_authenticated.
  - rewrite jobs_may_insert. apply holds_authenticated.
  - intros c row w w' H. apply jobs_insert_inv in H as [_ ->]. reflexivity.
  - intros u form new_id w w'. unfold createJob.
    destruct (storable _ && _ && _ && _); [|done].
    destruct (jobs_insert _ _ w) as [w1|] eqn:E; [|done].
    intros [= <-]. apply jobs_insert_inv in E as [_ ->].
    eexists. split; reflexivity.
Qed.

Lemma job_created_by_is_what_the_request_carries_witness :
  createJob (Some Office.alice) Office.banner_form Office.banner_job Office.staff
  = (Office.with_job, Success) /\
  exists row, jobs Office.with_job = jobs Office.staff ++ [row] /\
              j_created_by row = auth_uid (client_caller (Some Office.alice)).
Proof.
  split; [reflexivity|].
  apply (proj2 (proj2 job_created_by_is_what_the_request_carries)
           Office.alice Office.banner_form Office.banner_job Office.staff).
  reflexivity.
Defined.

(** ** Seeing templates *)

(** C6: a template with [is_public = false] is returned by a select only
    to the caller whose id is its [created_by], and a template with
    [is_public = true] is returned to every caller, so to every
    authenticated one. *)
Theorem template_visibility (c : Caller) (t : Template) (tbl : list Template)
    (flt : Template -> bool) :
  t ∈ tbl ->
  flt t = true ->
  (t_is_public t = Some false ->
     t ∈ Rls.select project_templates_policies c flt tbl
     <-> exists u, auth_uid c = Some u /\ t_created_by t = Some u) /\
  (t_is_public t = Some true ->
     t ∈ Rls.select project_templates_policies c flt tbl).
Proof.
  intros Hin Hflt. split; intros Hpub.
  - rewrite elem_of_select, templates_passes_select, Hpub. simpl.
    rewrite holds_eq. tauto.
  - apply elem_of_select. rewrite templates_passes_select, Hpub. done.
Qed.

Lemma template_visibility_witness :
  (Office.alice_template ∈ Rls.select project_templates_policies (session Office.bob)
      (fun _ => true) [Office.alice_template]
   <-> exists u, auth_uid (session Office.bob) = Some u
                 /\ t_created_by Office.alice_template = Some u).
Proof.
  apply (template_visibility (session Office.bob) Office.alice_template
           [Office.alice_template] (fun _ => true)).
  - apply list_elem_of_singleton. reflexivity.
  - reflexivity.
  - reflexivity.
Defined.

(** ** File versions are append-only *)

(** C9: for every caller, the creator of the row included, no FileVersion
    row passes for UPDATE or DELETE, so an update request changes no row
    and a delete request removes none; SELECT and INSERT pass, for the
    authenticated callers. *)
Theorem file_versions_append_only (c : Caller) (r : FileVersion) :
  Rls.passes file_versions_policies UPDATE c r = false /\
  Rls.passes file_versions_policies DELETE c r = false /\
  (forall flt patch tbl,
     Rls.update file_versions_policies c flt patch tbl = Some tbl) /\
  (forall flt tbl, Rls.delete file_versions_policies c flt tbl = tbl) /\
  (Rls.passes file_versions_policies SELECT c r = true
   <-> auth_role c = "authenticated") /\
  (Rls.may_insert file_versions_policies c r = true
   <-> auth_role c = "authenticated").
Proof.
  split; [reflexivity|]. split; [reflexivity|].
  split; [intros; by apply update_nothing|].
  split; [intros; by apply delete_nothing|].
  unfold Rls.may_insert. rewrite !file_versions_passes.
  split; apply holds_authenticated.
Qed.

(** ** Identity bootstrap *)

Lemma new_profile_row_with_email NEW email now :
  u_email NEW = Some email ->
  exists row, new_profile_row NEW now = Some row /\
    p_id row = u_id NEW /\
    p_role row = (if bool_decide (email ∈ admin_emails) then "admin" else "user").
Proof.
  intros He. unfold new_profile_row. rewrite He. simpl.
  destruct (u_meta_full_name NEW); simpl; eexists; repeat split;
    simpl; by destruct (bool_decide (email ∈ admin_emails)).
Qed.

Lemma filter_id_none (tbl : list Profile) id :
  id ∉ map p_id tbl ->
  List.filter (fun p => bool_decide (p_id p = id)) tbl = [].
Proof.
  induction tbl as [|p tbl IH]; simpl; [done|].
  intros Hout. apply not_elem_of_cons in Hout as [Hne Hout].
  rewrite bool_decide_eq_false_2 by done. auto.
Qed.

(** An update that does not name [role] leaves every role as it is, whatever
    it does to the email. *)
Lemma update_without_role_keeps_roles c id patch now w :
  set_role patch = None ->
  exists w', profiles_update c id patch now w = Some w' /\
             map p_role (profiles w') = map p_role (profiles w).
Proof.
  intros Hnone. rewrite profiles_update_closed_form. eexists. split; [reflexivity|].
  simpl. rewrite map_map. apply map_ext. intros r.
  destruct (_ && _); [|done]. simpl. by rewrite Hnone.
Qed.

(** C2: when an identity that the provider has not seen signs up, the
    trigger adds exactly one Profile row for it, with the role ['admin'] if
    its email is on the fixed allowlist and ['user'] otherwise; a second
    sign-up of the identity is refused, and a later update that does not
    name [role] leaves every stored role as it is: nothing recomputes it. *)
Theorem first_sign_up_creates_one_profile (NEW : AuthUser) (email : string)
    (now : timestamp) (w : World) :
  u_email NEW = Some email ->
  u_id NEW ∉ map u_id (auth_users w) ->
  (forall p, p ∈ profiles w -> p_id p ∈ map u_id (auth_users w)) ->
  exists w' row,
    sign_up NEW now w = Some w' /\
    profiles w' = profiles w ++ [row] /\
    List.filter (fun p => bool_decide (p_id p = u_id NEW)) (profiles w') = [row] /\
    p_role row = (if bool_decide (email ∈ admin_emails) then "admin" else "user") /\
    (forall now', sign_up NEW now' w' = None) /\
    (forall c id patch now',
       set_role patch = None ->
       exists w'', profiles_update c id patch now' w' = Some w'' /\
                   map p_role (profiles w'') = map p_role (profiles w')).
Proof.
  intros He Hnew Hfk.
  destruct (new_profile_row_with_email NEW email now He) as (row & Hrow & Hid & Hrole).
  assert (Hnop : u_id NEW ∉ map p_id (profiles w)).
  { intros Hin. apply list_elem_of_fmap in Hin as (p & Hp & Hin).
    apply Hnew. rewrite Hp. by apply Hfk. }
  exists (set_profiles (profiles w ++ [row]) (set_auth_users (auth_users w ++ [NEW]) w)), row.
  repeat split.
  - unfold sign_up. rewrite bool_decide_eq_false_2 by done.
    unfold handle_new_user. rewrite Hrow. simpl.
    rewrite Hid. by rewrite bool_decide_eq_false_2.
  - simpl. rewrite List.filter_app, filter_id_none by done. simpl.
    by rewrite bool_decide_eq_true_2.
  - done.
  - intros now'. unfold sign_up. simpl.
    rewrite bool_decide_eq_true_2; [done|].
    rewrite map_app. apply elem_of_app. right. simpl. apply list_elem_of_singleton. done.
  - intros. by apply update_without_role_keeps_roles.
Qed.

Lemma first_sign_up_creates_one_profile_witness :
  exists w' row,
    sign_up Office.bob_user 2 Office.only_alice = Some w' /\
    profiles w' = profiles Office.only_alice ++ [row] /\
    List.filter (fun p => bool_decide (p_id p = u_id Office.bob_user)) (profiles w') = [row] /\
    p_role row = (if bool_decide ("bob@example.com" ∈ admin_emails)
                  then "admin" else "user") /\
    (forall now', sign_up Office.bob_user now' w' = None) /\
    (forall c id patch now',
       set_role patch = None ->
       exists w'', profiles_update c id patch now' w' = Some w'' /\
                   map p_role (profiles w'') = map p_role (profiles w')).
Proof.
  apply (first_sign_up_creates_one_profile Office.bob_user "bob@example.com" 2
           Office.only_alice).
  - reflexivity.
  - apply (bool_decide_unpack _). vm_compute. exact I.
  - intros p Hp. apply (bool_decide_unpack _).
    vm_compute in Hp. apply list_elem_of_singleton in Hp. subst p.
    vm_compute. exact I.
Defined.

(** ** Deleting a job *)

Lemma jobs_delete_keeps_objects c jobId w :
  objects (jobs_delete c jobId w) = objects w.
Proof. reflexivity. Qed.

(** The cascade: once a delete request has removed the job, no file row
    refers to it. *)
Lemma jobs_delete_cascades c jobId w j :
  j ∈ jobs w -> j_id j = jobId ->
  Rls.may_delete jobs_policies c j = true ->
  forall f, f ∈ job_files (jobs_delete c jobId w) -> f_job_id f <> Some jobId.
Proof.
  intros Hj Hid Hmay f Hf Hjob. simpl in Hf.
  apply list_elem_of_In, filter_In in Hf as [_ Hf].
  rewrite Hjob in Hf. apply negb_true_iff, bool_decide_eq_false in Hf.
  apply Hf. apply list_elem_of_fmap. exists j. split; [done|].
  apply elem_of_deleted. repeat split; [done| |done].
  by apply bool_decide_eq_true.
Qed.

(** C5 on the office: Alice deletes the banner job.  The job and its file
    row are gone, and a delete of a job never touches the object store, so
    Bob still downloads the bytes of the logo by its path. *)
Theorem deleted_job_leaves_its_blobs :
  (forall user jobId w, objects (fst (deleteJob user jobId w)) = objects w) /\
  let w := fst (deleteJob (Some Office.alice) Office.banner_job Office.with_file) in
  Office.logo_row ∈ job_files Office.with_file /\
  jobs w = [] /\
  job_files w = [] /\
  downloadFile (Some Office.bob) Office.logo_row w = Some (file_bytes Office.logo_png).
Proof.
  split; [reflexivity|].
  repeat split. vm_compute. apply list_elem_of_singleton. reflexivity.
Qed.

(** ** Numbering file versions *)

(** C7 on the office: Alice and Bob have both fetched the (empty) version
    list of the logo; each then creates a version.  Both requests succeed
    and both rows carry the version number 1. *)
Theorem concurrent_versions_share_a_number :
  let w := fst (run Office.race (Office.with_file, [Office.panel Office.alice;
                                                    Office.panel Office.bob])) in
  length (file_versions w) = 2%nat /\
  version_numbers Office.logo_id w = [1%Z; 1%Z] /\
  ~ NoDup (version_numbers Office.logo_id w).
Proof.
  assert (E : version_numbers Office.logo_id
                (fst (run Office.race (Office.with_file, [Office.panel Office.alice;
                                                          Office.panel Office.bob])))
              = [1%Z; 1%Z]) by (vm_compute; reflexivity).
  cbv zeta. split; [vm_compute; reflexivity|]. split; [exact E|].
  intros Hnd. apply (f_equal NoDup) in E.
  assert (Hnd' : NoDup [1%Z; 1%Z]) by (by rewrite <- E).
  apply NoDup_cons in Hnd' as [Hnotin _].
  apply Hnotin. apply list_elem_of_singleton. reflexivity.
Qed.

Lemma insert_desc_length v l : length (insert_desc v l) = S (length l).
Proof.
  induction l as [|x xs IH]; simpl; [done|].
  destruct (_ <=? _)%Z; simpl; by rewrite ?IH.
Qed.

Lemma order_desc_length l : length (order_desc l) = length l.
Proof.
  induction l as [|x xs IH]; simpl; [done|].
  by rewrite insert_desc_length, IH.
Qed.

(** A signed-in caller's fetch counts every stored version of the file. *)
Lemma select_versions_length u file_id w :
  length (select_versions (session u) file_id w)
  = length (version_numbers file_id w).
Proof.
  unfold select_versions, version_numbers, Rls.select.
  rewrite order_desc_length, length_map. f_equal.
  apply List.filter_ext. intros r.
  by rewrite file_versions_passes, session_authenticated, andb_true_r.
Qed.

Lemma fetchVersions_up_to_date cl w : up_to_date (fetchVersions cl w) w.
Proof. reflexivity. Qed.

Lemma file_versions_insert_inv c row w w' :
  file_versions_insert c row w = Some w' ->
  w' = set_file_versions (file_versions w ++ [row]) w.
Proof. unfold file_versions_insert. destruct (_ && _); congruence. Qed.

Lemma createNewVersion_success cl file changelog new_id w w' cl' :
  createNewVersion cl file changelog new_id w = (w', cl', Success) ->
  file_versions w' = file_versions w ++ [version_row cl file changelog new_id]
  /\ cl' = cl.
Proof.
  unfold createNewVersion.
  destruct (storage_upload _ _ _ _) as [objs|]; [|done].
  destruct (file_versions_insert _ _ _) as [w2|] eqn:E; [|done].
  intros [= <- <-]. by apply file_versions_insert_inv in E as ->.
Qed.

(** With a free path and a free row id, a signed-in caller's request goes
    through. *)
Lemma createNewVersion_goes_through cl u file changelog new_id w :
  collab_user cl = Some u ->
  objects w !! version_filePath cl file = None ->
  new_id ∉ map v_id (file_versions w) ->
  exists w' cl', createNewVersion cl file changelog new_id w = (w', cl', Success).
Proof.
  intros Hu Hfree Hid. unfold createNewVersion, storage_upload. rewrite Hu.
  replace (Rls.may_insert storage_objects_policies (client_caller (Some u))
             (object_row (version_filePath cl file))) with true by reflexivity.
  rewrite Hfree. unfold file_versions_insert.
  replace (Rls.may_insert file_versions_policies (client_caller (Some u))
             (version_row cl file changelog new_id)) with true by reflexivity.
  simpl. rewrite bool_decide_eq_true_2 by done. eauto.
Qed.

Lemma version_numbers_snoc file_id w w' row :
  file_versions w' = file_versions w ++ [row] ->
  v_file_id row = file_id ->
  version_numbers file_id w' = version_numbers file_id w ++ [v_version_number row].
Proof.
  intros Hw Hid. unfold version_numbers.
  rewrite Hw, List.filter_app, map_app. simpl.
  by rewrite bool_decide_eq_true_2.
Qed.

(** One creation from an up-to-date list appends the count plus one; the
    component's list is then one short until its refresh arrives. *)
Lemma createNewVersion_appends cl u file changelog new_id w w' cl' :
  collab_user cl = Some u ->
  up_to_date cl w ->
  createNewVersion cl file changelog new_id w = (w', cl', Success) ->
  version_numbers (fileId cl) w'
  = version_numbers (fileId cl) w
    ++ [(Z.of_nat (length (version_numbers (fileId cl) w)) + 1)%Z]
  /\ cl' = cl.
Proof.
  intros Hu Hup Hrun. apply createNewVersion_success in Hrun as [Hw ->].
  split; [|done].
  rewrite (version_numbers_snoc (fileId cl) _ _ _ Hw eq_refl). simpl.
  unfold up_to_date in Hup. rewrite Hu in Hup. simpl in Hup.
  by rewrite Hup, select_versions_length.
Qed.

Lemma create_in_turn_appends u reqs : forall cl w w' cl' toasts,
  collab_user cl = Some u ->
  up_to_date cl w ->
  create_in_turn cl reqs w = (w', cl', toasts) ->
  Forall (eq Success) toasts ->
  version_numbers (fileId cl) w'
  = version_numbers (fileId cl) w
    ++ map (fun i => Z.of_nat (length (version_numbers (fileId cl) w) + i))
           (seq 1 (length reqs)).
Proof.
  induction reqs as [|[[file changelog] new_id] rest IH];
    intros cl w w' cl' toasts Hu Hup Hrun Hok; simpl in Hrun.
  - injection Hrun as <- _ _. simpl. by rewrite app_nil_r.
  - destruct (createNewVersion cl file changelog new_id w) as [[w1 cl1] t] eqn:E1.
    destruct (create_in_turn _ rest w1) as [[w2 cl2] ts] eqn:E2.
    injection Hrun as <- _ <-.
    apply Forall_cons in Hok as [<- Hok].
    destruct (createNewVersion_appends _ _ _ _ _ _ _ _ Hu Hup E1) as (Hone & ->).
    specialize (IH (fetchVersions cl w1) w1 _ _ _ Hu (fetchVersions_up_to_date cl w1)
                  E2 Hok).
    change (fileId (fetchVersions cl w1)) with (fileId cl) in IH.
    rewrite IH, Hone, <- app_assoc. f_equal.
    rewrite length_app. simpl. f_equal; [f_equal; lia|].
    rewrite <- (seq_shift _ 1), map_map. apply map_ext. intros i. f_equal. lia.
Qed.

Lemma seq_strictly_increasing a k : StronglySorted Z.lt (map Z.of_nat (seq a k)).
Proof.
  revert a. induction k as [|k IH]; intros a; simpl; constructor; [apply IH|].
  apply List.Forall_forall. intros z Hz.
  apply in_map_iff in Hz as (i & <- & Hi). apply in_seq in Hi. lia.
Qed.

(** What does hold: a creation by a component whose list is what a fetch
    would return now stores the file's count plus one (and goes through
    when the path and the row id are free); creations in turn by one
    component, each after the refresh of the one before has arrived, append
    count+1, count+2, ..., so 1, 2, 3, ... from an empty history. *)
Lemma up_to_date_list_numbers_in_order (cl : Collab) (u : uuid) (w : World) :
  collab_user cl = Some u ->
  up_to_date cl w ->
  (forall file changelog new_id,
     objects w !! version_filePath cl file = None ->
     new_id ∉ map v_id (file_versions w) ->
     exists w',
       createNewVersion cl file changelog new_id w = (w', cl, Success) /\
       version_numbers (fileId cl) w'
       = version_numbers (fileId cl) w
         ++ [(Z.of_nat (length (version_numbers (fileId cl) w)) + 1)%Z]) /\
  (forall reqs w' cl' toasts,
     create_in_turn cl reqs w = (w', cl', toasts) ->
     Forall (eq Success) toasts ->
     version_numbers (fileId cl) w'
     = version_numbers (fileId cl) w
       ++ map (fun i => Z.of_nat (length (version_numbers (fileId cl) w) + i))
              (seq 1 (length reqs))) /\
  (forall reqs w' cl' toasts,
     create_in_turn cl reqs w = (w', cl', toasts) ->
     Forall (eq Success) toasts ->
     version_numbers (fileId cl) w = [] ->
     version_numbers (fileId cl) w' = map Z.of_nat (seq 1 (length reqs)) /\
     StronglySorted Z.lt (version_numbers (fileId cl) w')).
Proof.
  intros Hu Hup. split; [|split].
  - intros file changelog new_id Hfree Hid.
    destruct (createNewVersion_goes_through cl u file changelog new_id w Hu Hfree Hid)
      as (w' & cl' & Hrun).
    destruct (createNewVersion_appends _ _ _ _ _ _ _ _ Hu Hup Hrun) as (Hone & ->).
    by exists w'.
  - intros reqs w' cl' toasts. by apply (create_in_turn_appends u).
  - intros reqs w' cl' toasts Hrun Hok Hempty.
    rewrite (create_in_turn_appends u reqs cl w w' cl' toasts) by done.
    rewrite Hempty. simpl. split; [done|]. apply seq_strictly_increasing.
Qed.

Example in_turn_numbers :
  version_numbers Office.logo_id
    (fst (fst (create_in_turn (Office.panel Office.alice) Office.in_turn Office.with_file)))
  = [1%Z; 2%Z; 3%Z].
Proof. vm_compute. reflexivity. Qed.

(** C8 on the office: creations strictly in turn.  Alice and Bob have the
    panel of the logo open, both with the fetched list [[]].  Alice creates a
    version, number 1, and her refresh arrives.  Only then does Bob create
    one.  His component numbers from the list it fetched earlier, so his
    request goes through with the number 1 although one version is stored:
    the number is not the current count plus one, and the file's numbers do
    not increase. *)
Theorem stale_list_repeats_a_number :
  let st := run Desk.alice_first (Office.with_file, Desk.panels) in
  version_numbers Office.logo_id (fst st) = [1%Z] /\
  snd st !! 1%nat = Some (Office.panel Office.bob) /\
  snd (createNewVersion (Office.panel Office.bob) Office.logo_pdf "print"
         "5e000000-0000-4000-8000-00000000000e" (fst st)) = Success /\
  version_numbers Office.logo_id (fst (step st Desk.bob_next)) = [1%Z; 1%Z] /\
  ~ StronglySorted Z.lt (version_numbers Office.logo_id (fst (step st Desk.bob_next))).
Proof.
  assert (E : version_numbers Office.logo_id
                (fst (step (run Desk.alice_first (Office.with_file, Desk.panels))
                        Desk.bob_next))
              = [1%Z; 1%Z]) by (vm_compute; reflexivity).
  cbv zeta. split; [vm_compute; reflexivity|]. split; [vm_compute; reflexivity|].
  split; [vm_compute; reflexivity|]. split; [exact E|].
  intros Hsorted. apply (f_equal (StronglySorted Z.lt)) in E.
  assert (Hbad : StronglySorted Z.lt [1%Z; 1%Z]) by (by rewrite <- E).
  apply StronglySorted_inv in Hbad as [_ Hall].
  apply Forall_cons in Hall as [Hlt _]. lia.
Qed.

(** ** Where uploads are stored, and who may remove them *)

Lemma split_on_nonempty sep s : split_on sep s <> [].
Proof.
  destruct s as [|c s]; simpl; [done|].
  destruct (Ascii.eqb c sep); [done|]. by destruct (split_on sep s).
Qed.

(** The first segment of [a/b] is [a] when [a] has no separator. *)
Lemma split_on_prefix sep a b :
  lacks sep a = true ->
  split_on sep (a +:+ String sep b) = a :: split_on sep b.
Proof.
  induction a as [|c a IH]; simpl; intros Hlacks.
  - by rewrite Ascii.eqb_refl.
  - apply andb_true_iff in Hlacks as [Hc Hlacks].
    apply negb_true_iff in Hc. rewrite Hc, IH by done. reflexivity.
Qed.

Lemma foldername_first jobId rest :
  lacks "/" jobId = true ->
  sql_first (foldername (jobId +:+ "/" +:+ rest)) = Some jobId.
Proof.
  intros Hlacks. unfold foldername.
  assert (Hparts : string_to_array (jobId +:+ "/" +:+ rest) "/"
                   = jobId :: split_on "/" rest).
  { change (jobId +:+ "/" +:+ rest) with (jobId +:+ String "/" rest).
    rewrite <- (split_on_prefix "/" jobId rest Hlacks).
    by destruct jobId. }
  rewrite Hparts.
  destruct (split_on "/" rest) as [|x xs] eqn:E; [by apply split_on_nonempty in E|].
  reflexivity.
Qed.

Lemma upload_filePath_first jobId file d :
  lacks "/" jobId = true ->
  sql_first (foldername (upload_filePath jobId file d)) = Some jobId.
Proof. apply foldername_first. Qed.

(** The DELETE policy of the object store, on a path under a job's
    folder. *)
Lemma storage_delete_needs_folder_owner c jobId file d :
  lacks "/" jobId = true ->
  auth_uid c <> Some jobId ->
  Rls.may_delete storage_objects_policies c (object_row (upload_filePath jobId file d))
  = false.
Proof.
  intros Hlacks Hne. rewrite storage_may_delete, upload_filePath_first by done.
  apply andb_false_iff. right. apply not_true_is_false. intros Hok.
  apply holds_eq in Hok as (x & Hc & [= ->]). done.
Qed.

Lemma handleFileUpload_world user jobId selectedFiles w :
  fst (handleFileUpload user jobId selectedFiles w)
  = fst (upload_loop user jobId selectedFiles w).
Proof.
  unfold handleFileUpload. destruct selectedFiles as [|x rest]; [done|].
  by destruct (upload_loop user jobId (x :: rest) w).
Qed.

Lemma job_files_insert_inv c row w w' :
  job_files_insert c row w = Some w' ->
  w' = set_job_files (job_files w ++ [row]) w.
Proof. unfold job_files_insert. destruct (_ && _); congruence. Qed.

Lemma storage_upload_inv c path content objs objs' :
  storage_upload c path content objs = Some objs' -> objs' = <[path := content]> objs.
Proof.
  unfold storage_upload. destruct (Rls.may_insert _ _ _); [|done].
  destruct (objs !! path); congruence.
Qed.

(** The loop only adds objects. *)
Lemma upload_loop_keeps_objects user jobId selectedFiles : forall w p,
  is_Some (objects w !! p) ->
  is_Some (objects (fst (upload_loop user jobId selectedFiles w)) !! p).
Proof.
  induction selectedFiles as [|[file d] rest IH]; intros w p Hp; simpl; [done|].
  destruct (storage_upload _ _ _ _) as [objs|] eqn:Eup; [|done].
  apply storage_upload_inv in Eup as ->.
  assert (Hp' : is_Some (<[upload_filePath jobId file d := file_bytes file]> (objects w) !! p)).
  { apply lookup_insert_is_Some'. by right. }
  destruct (job_files_insert _ _ _) as [w2|] eqn:Eins; [|done].
  apply job_files_insert_inv in Eins as ->. by apply IH.
Qed.

(** Every object the loop adds lies at an upload path of the job. *)
Lemma upload_loop_objects user jobId selectedFiles : forall w p,
  is_Some (objects (fst (upload_loop user jobId selectedFiles w)) !! p) ->
  is_Some (objects w !! p) \/ exists file d, p = upload_filePath jobId file d.
Proof.
  induction selectedFiles as [|[file d] rest IH]; intros w p; simpl; [by left|].
  destruct (storage_upload _ _ _ _) as [objs|] eqn:Eup; [|by left].
  apply storage_upload_inv in Eup as ->.
  assert (Hins : forall q,
    is_Some (<[upload_filePath jobId file d := file_bytes file]> (objects w) !! q) ->
    is_Some (objects w !! q) \/ exists file' d', q = upload_filePath jobId file' d').
  { intros q Hq. apply lookup_insert_is_Some in Hq as [<- | [_ Hq]]; eauto. }
  destruct (job_files_insert _ _ _) as [w2|] eqn:Eins; [|by apply Hins].
  apply job_files_insert_inv in Eins as ->.
  intros Hp. apply IH in Hp as [Hp | Hp]; [|by right]. by apply Hins.
Qed.

(** Every row the loop adds is an upload row of the job, and its object is
    in the store. *)
Lemma upload_loop_rows user jobId selectedFiles : forall w r,
  r ∈ job_files (fst (upload_loop user jobId selectedFiles w)) ->
  r ∈ job_files w \/
  (exists file d, r = upload_row user jobId file d) /\
  is_Some (objects (fst (upload_loop user jobId selectedFiles w)) !! f_file_path r).
Proof.
  induction selectedFiles as [|[file d] rest IH]; intros w r; simpl; [by left|].
  destruct (storage_upload _ _ _ _) as [objs|] eqn:Eup; [|by left].
  apply storage_upload_inv in Eup as ->.
  destruct (job_files_insert _ _ _) as [w2|] eqn:Eins; [|by left].
  apply job_files_insert_inv in Eins as ->.
  intros Hr. apply IH in Hr as [Hr | Hr]; [|by right].
  simpl in Hr. apply elem_of_app in Hr as [Hr | Hr]; [by left|].
  apply list_elem_of_singleton in Hr as ->. right. split; [eauto|].
  apply upload_loop_keeps_objects. simpl. apply lookup_insert_is_Some'. by left.
Qed.

Lemma storage_remove_denied c path objs :
  Rls.may_delete storage_objects_policies c (object_row path) = false ->
  storage_remove c [path] objs = objs.
Proof. intros Hno. unfold storage_remove. simpl. by rewrite Hno. Qed.

(** C10: every object and every row that [handleFileUpload] adds lies
    under a path whose first folder is the job id (a UUID, so without a
    slash), whoever uploads.  The DELETE policy of the object store compares
    that folder with the caller's id: for a caller whose id is not the job
    id, the uploader included, the policy says no, the removal step of
    [deleteFile] removes nothing and the object stays in the store. *)
Theorem uploads_are_keyed_by_job (user : option uuid) (jobId : uuid)
    (selectedFiles : list (File * Draw)) (w : World) :
  lacks "/" jobId = true ->
  let w' := fst (handleFileUpload user jobId selectedFiles w) in
  (forall p, is_Some (objects w' !! p) -> objects w !! p = None ->
     sql_first (foldername p) = Some jobId) /\
  (forall r, r ∈ job_files w' -> r ∉ job_files w ->
     f_uploaded_by r = user /\
     sql_first (foldername (f_file_path r)) = Some jobId /\
     is_Some (objects w' !! f_file_path r) /\
     forall c, auth_uid c <> Some jobId ->
       Rls.may_delete storage_objects_policies c (object_row (f_file_path r)) = false /\
       (forall objs, storage_remove c [f_file_path r] objs = objs) /\
       (forall who w0, client_caller who = c ->
          objects (fst (deleteFile who r true w0)) = objects w0)).
Proof.
  intros Hlacks w'. subst w'. rewrite handleFileUpload_world. split.
  - intros p Hp Hnew. apply upload_loop_objects in Hp as [Hp | (file & d & ->)].
    + rewrite Hnew in Hp. by destruct Hp.
    + by apply upload_filePath_first.
  - intros r Hr Hnew.
    apply upload_loop_rows in Hr as [Hr | [(file & d & ->) Hobj]]; [done|].
    split; [done|]. split; [by apply upload_filePath_first|]. split; [done|].
    intros c Hne.
    assert (Hno : Rls.may_delete storage_objects_policies c
                    (object_row (f_file_path (upload_row user jobId file d))) = false)
      by (by apply storage_delete_needs_folder_owner).
    split; [done|]. split.
    + intros objs. by apply storage_remove_denied.
    + intros who w0 <-.
      change (objects (fst (deleteFile who (upload_row user jobId file d) true w0)))
        with (storage_remove (client_caller who)
                [f_file_path (upload_row user jobId file d)] (objects w0)).
      by apply storage_remove_denied.
Qed.

Lemma uploads_are_keyed_by_job_witness :
  f_uploaded_by Office.logo_row = Some Office.alice /\
  sql_first (foldername (f_file_path Office.logo_row)) = Some Office.banner_job /\
  is_Some (objects Office.with_file !! f_file_path Office.logo_row) /\
  forall c, auth_uid c <> Some Office.banner_job ->
    Rls.may_delete storage_objects_policies c (object_row (f_file_path Office.logo_row))
    = false /\
    (forall objs, storage_remove c [f_file_path Office.logo_row] objs = objs) /\
    (forall who w0, client_caller who = c ->
       objects (fst (deleteFile who Office.logo_row true w0)) = objects w0).
Proof.
  refine (proj2 (uploads_are_keyed_by_job (Some Office.alice) Office.banner_job
                   [(Office.logo_png, Office.logo_draw)] Office.with_job _)
            Office.logo_row _ _).
  - reflexivity.
  - vm_compute. apply list_elem_of_singleton. reflexivity.
  - vm_compute. apply not_elem_of_nil.
Defined.

(** * Further properties of the client and the policies *)

(** ** Updates through the engine *)

Lemma filter_nothing {A} (f : A -> bool) (l : list A) :
  (forall x, x ∈ l -> f x = false) -> List.filter f l = [].
Proof.
  induction l as [|x l IH]; simpl; intros Hno; [done|].
  rewrite (Hno x) by apply list_elem_of_here.
  apply IH. intros y Hy. apply Hno. by apply list_elem_of_further.
Qed.

Lemma map_unchanged {A} (f : A -> bool) (g : A -> A) (l : list A) :
  (forall x, x ∈ l -> f x = false) -> map (fun x => if f x then g x else x) l = l.
Proof.
  induction l as [|x l IH]; simpl; intros Hno; [done|].
  rewrite (Hno x) by apply list_elem_of_here. f_equal.
  apply IH. intros y Hy. apply Hno. by apply list_elem_of_further.
Qed.

Section UpdateFacts.
Context {R : Type}.
Variable ps : list (Policy R).

(** When every patched row still passes, the update is a map over the
    table. *)
Lemma update_closed_form c f patch (tbl : list R) :
  (forall r, r ∈ tbl -> f r && Rls.may_update ps c r = true ->
             Rls.passes ps UPDATE c (patch r) = true) ->
  Rls.update ps c f patch tbl
  = Some (map (fun r => if f r && Rls.may_update ps c r then patch r else r) tbl).
Proof.
  intros Hok. unfold Rls.update.
  replace (forallb _ _) with true; [done|]. symmetry.
  apply forallb_forall. intros r Hr. apply filter_In in Hr as [Hin Hr].
  apply Hok; [by apply list_elem_of_In | done].
Qed.

(** A request that matches no row the caller may update changes nothing
    and raises nothing. *)
Lemma update_untouched c f patch (tbl : list R) :
  (forall r, r ∈ tbl -> f r && Rls.may_update ps c r = false) ->
  Rls.update ps c f patch tbl = Some tbl.
Proof.
  intros Hno. rewrite update_closed_form.
  - by rewrite map_unchanged.
  - intros r Hr Hhit. rewrite Hno in Hhit; done.
Qed.

(** One touched row whose patched version fails the policy aborts the
    update. *)
Lemma update_aborts c f patch (tbl : list R) r :
  r ∈ tbl -> f r = true -> Rls.may_update ps c r = true ->
  Rls.passes ps UPDATE c (patch r) = false ->
  Rls.update ps c f patch tbl = None.
Proof.
  intros Hin Hf Hmay Hnew. unfold Rls.update.
  replace (forallb _ _) with false; [done|]. symmetry.
  apply not_true_is_false. intros Hall.
  rewrite forallb_forall in Hall. rewrite (Hall r) in Hnew; [done|].
  apply filter_In. split; [by apply list_elem_of_In|]. by rewrite Hf, Hmay.
Qed.

End UpdateFacts.

Lemma set_jobs_same (w : World) : set_jobs (jobs w) w = w.
Proof. by destruct w. Qed.

Lemma set_job_files_same (w : World) : set_job_files (job_files w) w = w.
Proof. by destruct w. Qed.

(** ** Editing a job *)

Lemma jobs_may_update c j :
  Rls.may_update jobs_policies c j
  = Sql.holds (authenticated c) && Sql.holds (Sql.eq (auth_uid c) (j_created_by j)).
Proof. unfold Rls.may_update, Rls.passes. simpl. by rewrite !orb_false_r. Qed.

Lemma jobs_passes_update c j :
  Rls.passes jobs_policies UPDATE c j = Sql.holds (Sql.eq (auth_uid c) (j_created_by j)).
Proof. unfold Rls.passes. simpl. by rewrite !orb_false_r. Qed.

Lemma jobs_session_may_update u j :
  Rls.may_update jobs_policies (session u) j = bool_decide (j_created_by j = Some u).
Proof.
  rewrite jobs_may_update.
  destruct (decide (j_created_by j = Some u)) as [Hown | Hother].
  - rewrite bool_decide_eq_true_2 by done.
    by apply (owner_passes (session u) u).
  - rewrite bool_decide_eq_false_2 by done. apply not_true_is_false.
    intros Hok. by apply (owner_passes (session u) u) in Hok.
Qed.

(** X1: an edit that someone other than the job's creator submits changes
    nothing, and the dialog still reports success. *)
Theorem updateJob_by_another_user (u : uuid) (job : Job) (form : JobEditForm)
    (w : World) :
  (forall j, j ∈ jobs w -> j_id j = j_id job -> j_created_by j <> Some u) ->
  updateJob (Some u) (Some job) form w = (w, Some Success).
Proof.
  intros Hother. unfold updateJob, jobs_update. simpl.
  assert (Hno : forall r, r ∈ jobs w ->
            bool_decide (j_id r = j_id job) && Rls.may_update jobs_policies (session u) r
            = false).
  { intros r Hr. rewrite jobs_session_may_update.
    case_bool_decide as Hid; [|done]. simpl.
    apply bool_decide_eq_false_2. by apply Hother. }
  rewrite (filter_nothing _ _ Hno). simpl.
  rewrite update_untouched by done. simpl. by rewrite set_jobs_same.
Qed.

Lemma updateJob_by_another_user_witness :
  updateJob (Some Office.bob) (Some Desk.banner) Desk.done_form Desk.shared
  = (Desk.shared, Some Success).
Proof.
  apply updateJob_by_another_user.
  intros j Hj _. vm_compute in Hj. apply list_elem_of_singleton in Hj. subst j.
  discriminate.
Defined.



(** X3: when the creator submits a priority or a status outside the lists
    of the CHECK constraints, the update is refused: nothing changes and the
    dialog reports an error. *)
Theorem updateJob_rejects_unknown_values (u : uuid) (job j : Job) (form : JobEditForm)
    (w : World) :
  j ∈ jobs w -> j_id j = j_id job -> j_created_by j = Some u ->
  edit_priority form ∉ ["low"; "medium"; "high"]
  \/ edit_status form ∉ ["pending"; "in-progress"; "completed"] ->
  updateJob (Some u) (Some job) form w = (w, Some Error).
Proof.
  intros Hin Hid Hown Hbad. unfold updateJob, jobs_update. simpl.
  replace (forallb _ _) with false; [done|]. symmetry.
  apply not_true_is_false. intros Hall. rewrite forallb_forall in Hall.
  specialize (Hall j). unfold job_row_ok in Hall. simpl in Hall.
  rewrite andb_true_r in Hall.
  assert (Hj : In j (List.filter
            (fun r => bool_decide (j_id r = j_id job)
                      && Rls.may_update jobs_policies (session u) r) (jobs w))).
  { apply filter_In. split; [by apply list_elem_of_In|].
    rewrite jobs_session_may_update. by rewrite !bool_decide_eq_true_2. }
  apply Hall, andb_true_iff in Hj as [Hp Hs].
  apply bool_decide_eq_true in Hp, Hs. by destruct Hbad.
Qed.

Lemma updateJob_rejects_unknown_values_witness :
  updateJob (Some Office.alice) (Some Desk.banner)
    {| edit_name := "Banner"; edit_description := ""; edit_client_name := "";
       edit_priority := "high"; edit_status := "archived" |} Desk.shared
  = (Desk.shared, Some Error).
Proof.
  apply (updateJob_rejects_unknown_values Office.alice Desk.banner Desk.banner).
  - vm_compute. apply list_elem_of_singleton. reflexivity.
  - reflexivity.
  - reflexivity.
  - right. apply (bool_decide_unpack _). vm_compute. exact I.
Defined.

(** X4: the creator of a job cannot hand it to someone else: an update
    that sets [created_by] to another id makes the new row fail the UPDATE
    policy, whose [USING] expression is applied to it, and the statement is
    aborted. *)
Theorem job_cannot_change_hands (u v : uuid) (jobId : uuid) (patch : JobPatch)
    (j : Job) (w : World) :
  j ∈ jobs w -> j_id j = jobId -> j_created_by j = Some u ->
  upd_created_by patch = Some v -> v <> u ->
  jobs_update (session u) jobId patch w = None.
Proof.
  intros Hin Hid Hown Hset Hne. unfold jobs_update.
  destruct (forallb _ _); [|done].
  rewrite (update_aborts jobs_policies _ _ _ _ j); try done.
  - by apply bool_decide_eq_true.
  - rewrite jobs_session_may_update. by apply bool_decide_eq_true.
  - rewrite jobs_passes_update. simpl. rewrite Hset. simpl.
    rewrite bool_decide_eq_false_2; [done|]. congruence.
Qed.

Lemma job_cannot_change_hands_witness :
  jobs_update (session Office.alice) Office.banner_job
    {| upd_name := None; upd_description := None; upd_client_name := None;
       upd_priority := None; upd_status := None; upd_created_by := Some Office.bob |}
    Desk.shared
  = None.
Proof.
  apply (job_cannot_change_hands Office.alice Office.bob _ _ Desk.banner).
  - vm_compute. apply list_elem_of_singleton. reflexivity.
  - reflexivity.
  - reflexivity.
  - reflexivity.
  - discriminate.
Defined.

(** ** The presentation mark *)

Lemma job_files_passes_update c f :
  Rls.passes job_files_policies UPDATE c f
  = Sql.holds (Sql.eq (auth_uid c) (f_uploaded_by f)).
Proof. unfold Rls.passes. simpl. by rewrite !orb_false_r. Qed.

Lemma job_files_session_may_update u f :
  Rls.may_update job_files_policies (session u) f
  = bool_decide (f_uploaded_by f = Some u).
Proof.
  assert (E : Rls.may_update job_files_policies (session u) f
              = Sql.holds (authenticated (session u))
                && Sql.holds (Sql.eq (auth_uid (session u)) (f_uploaded_by f))).
  { unfold Rls.may_update, Rls.passes. simpl. by rewrite !orb_false_r. }
  rewrite E. destruct (decide (f_uploaded_by f = Some u)) as [Hown | Hother].
  - rewrite bool_decide_eq_true_2 by done. by apply (owner_passes (session u) u).
  - rewrite bool_decide_eq_false_2 by done. apply not_true_is_false.
    intros Hok. by apply (owner_passes (session u) u) in Hok.
Qed.

Lemma job_files_session_may_delete u f :
  Rls.may_delete job_files_policies (session u) f
  = bool_decide (f_uploaded_by f = Some u).
Proof.
  rewrite job_files_may_delete.
  destruct (decide (f_uploaded_by f = Some u)) as [Hown | Hother].
  - rewrite bool_decide_eq_true_2 by done. by apply (owner_passes (session u) u).
  - rewrite bool_decide_eq_false_2 by done. apply not_true_is_false.
    intros Hok. by apply (owner_passes (session u) u) in Hok.
Qed.

Lemma togglePresentation_closed_form u file w :
  togglePresentation (Some u) file w
  = (set_job_files
       (map (fun r => if bool_decide (f_id r = f_id file)
                         && bool_decide (f_uploaded_by r = Some u)
                      then with_is_presentation (js_not (f_is_presentation file)) r
                      else r)
            (job_files w)) w, Success).
Proof.
  unfold togglePresentation. simpl. rewrite update_closed_form.
  - do 2 f_equal. apply map_ext. intros r. by rewrite job_files_session_may_update.
  - intros r _ Hhit. apply andb_true_iff in Hhit as [_ Hmay].
    unfold Rls.may_update in Hmay. apply andb_true_iff in Hmay as [_ Hmay].
    by rewrite job_files_passes_update in *.
Qed.

(** X5: the star button is shown on every file, but the mark changes only
    on a row the caller uploaded: there it becomes the negation of what the
    client last saw; for a file somebody else uploaded nothing changes, and
    the toast still says success. *)
Theorem togglePresentation_only_for_uploader (u : uuid) (file : JobFile) (w : World) :
  togglePresentation (Some u) file w
  = (set_job_files
       (map (fun r => if bool_decide (f_id r = f_id file)
                         && bool_decide (f_uploaded_by r = Some u)
                      then with_is_presentation (js_not (f_is_presentation file)) r
                      else r)
            (job_files w)) w, Success)
  /\ ((forall r, r ∈ job_files w -> f_id r = f_id file -> f_uploaded_by r <> Some u) ->
      togglePresentation (Some u) file w = (w, Success)).
Proof.
  split; [apply togglePresentation_closed_form|].
  intros Hother. rewrite togglePresentation_closed_form, map_unchanged.
  - by rewrite set_job_files_same.
  - intros r Hr. case_bool_decide as Hid; [|done]. simpl.
    apply bool_decide_eq_false_2. by apply Hother.
Qed.

Lemma togglePresentation_only_for_uploader_witness :
  togglePresentation (Some Office.alice) Desk.sketch_row Desk.shared
  = (Desk.shared, Success).
Proof.
  apply (proj2 (togglePresentation_only_for_uploader Office.alice Desk.sketch_row
                  Desk.shared)).
  intros r Hr Hid. vm_compute in Hr.
  apply elem_of_cons in Hr as [-> | Hr]; [discriminate|].
  apply list_elem_of_singleton in Hr as ->. discriminate.
Defined.

Lemma NoDup_key_inj {A} (key : A -> uuid) (l : list A) x y :
  NoDup (map key l) -> x ∈ l -> y ∈ l -> key x = key y -> x = y.
Proof.
  induction l as [|a l IH]; simpl; intros Hnd Hx Hy Hk.
  - by apply elem_of_nil in Hx.
  - apply NoDup_cons in Hnd as [Hfresh Hnd].
    apply elem_of_cons in Hx as [-> | Hx]; apply elem_of_cons in Hy as [-> | Hy].
    + done.
    + exfalso. apply Hfresh. rewrite Hk. apply list_elem_of_fmap. eauto.
    + exfalso. apply Hfresh. rewrite <- Hk. apply list_elem_of_fmap. eauto.
    + by apply IH.
Qed.

(** X6: marking and unmarking is a round trip: when the uploader toggles a
    stored file and then toggles the refreshed row again, the table is back
    where it started. *)
Theorem togglePresentation_twice (u : uuid) (file : JobFile) (b : bool) (w : World) :
  NoDup (map f_id (job_files w)) ->
  file ∈ job_files w ->
  f_uploaded_by file = Some u ->
  f_is_presentation file = Some b ->
  let w1 := fst (togglePresentation (Some u) file w) in
  with_is_presentation (negb b) file ∈ job_files w1 /\
  fst (togglePresentation (Some u) (with_is_presentation (negb b) file) w1) = w.
Proof.
  intros Hnd Hin Hown Hflag w1. subst w1.
  rewrite togglePresentation_closed_form. simpl.
  assert (Hback : with_is_presentation (negb (negb b)) (with_is_presentation (negb b) file)
                  = file).
  { destruct file; simpl in *. unfold with_is_presentation. simpl.
    rewrite negb_involutive. congruence. }
  split.
  - apply list_elem_of_fmap. exists file. split; [|done].
    rewrite !bool_decide_eq_true_2 by done. simpl. by rewrite Hflag.
  - rewrite togglePresentation_closed_form.
    destruct w; unfold set_job_files; simpl in *. f_equal.
    rewrite map_map. transitivity (map id job_files0); [|apply map_id].
    apply map_ext_in. intros r Hr. unfold id.
    apply list_elem_of_In in Hr.
    destruct (decide (f_id r = f_id file)) as [Hid | Hid].
    + assert (r = file) as -> by (by apply (NoDup_key_inj f_id job_files0)).
      rewrite (bool_decide_eq_true_2 (f_id file = f_id file)) by done.
      rewrite (bool_decide_eq_true_2 (f_uploaded_by file = Some u)) by done.
      simpl.
      rewrite (bool_decide_eq_true_2 (f_id file = f_id file)) by done.
      rewrite (bool_decide_eq_true_2 (f_uploaded_by file = Some u)) by done.
      simpl. rewrite Hflag. apply Hback.
    + rewrite (bool_decide_eq_false_2 (f_id r = f_id file)) by done. simpl.
      by rewrite (bool_decide_eq_false_2 (f_id r = f_id file)).
Qed.

Lemma togglePresentation_twice_witness :
  with_is_presentation (negb true) Desk.sketch_row
    ∈ job_files (fst (togglePresentation (Some Office.bob) Desk.sketch_row Desk.shared)) /\
  fst (togglePresentation (Some Office.bob)
         (with_is_presentation (negb true) Desk.sketch_row)
         (fst (togglePresentation (Some Office.bob) Desk.sketch_row Desk.shared)))
  = Desk.shared.
Proof.
  apply (togglePresentation_twice Office.bob Desk.sketch_row true Desk.shared).
  - apply (bool_decide_unpack _). vm_compute. exact I.
  - vm_compute. apply list_elem_of_further, list_elem_of_here.
  - reflexivity.
  - reflexivity.
Defined.

(** ** Deleting a file *)

Lemma storage_session_download who path objs :
  storage_download (session who) path objs = objs !! path.
Proof. reflexivity. Qed.

(** X7: when the uploader deletes a file that was stored by
    [handleFileUpload], the row goes and the object stays: the removal step
    is refused (the folder is the job id, not the uploader's), the row
    delete is allowed, the toast says success, and every signed-in user can
    still download the bytes by the old path. *)
Theorem deleteFile_leaves_the_object (u jobId : uuid) (file : File) (d : Draw)
    (w : World) :
  lacks "/" jobId = true ->
  u <> jobId ->
  let r := upload_row (Some u) jobId file d in
  let w' := fst (deleteFile (Some u) r true w) in
  snd (deleteFile (Some u) r true w) = Some Success /\
  (r ∉ job_files w') /\
  objects w' = objects w /\
  (forall who, downloadFile (Some who) r w' = objects w !! f_file_path r).
Proof.
  intros Hlacks Hne r w'.
  assert (Hobj : objects w' = objects w).
  { subst w'.
    change (objects (fst (deleteFile (Some u) r true w)))
      with (storage_remove (session u) [f_file_path r] (objects w)).
    apply storage_remove_denied, storage_delete_needs_folder_owner; [done|].
    simpl. congruence. }
  split; [done|]. split; [|split; [done|]].
  - subst w'. simpl. intros Hin. apply elem_of_delete in Hin as [_ [Hid | Hmay]].
    + by rewrite bool_decide_eq_true_2 in Hid.
    + change (client_caller (Some u)) with (session u) in Hmay.
      rewrite job_files_session_may_delete in Hmay.
      by rewrite bool_decide_eq_true_2 in Hmay.
  - intros who. unfold downloadFile. simpl client_caller.
    by rewrite storage_session_download, Hobj.
Qed.

Lemma deleteFile_leaves_the_object_witness :
  snd (deleteFile (Some Office.bob) Desk.sketch_row true Desk.shared) = Some Success /\
  (Desk.sketch_row ∉ job_files (fst (deleteFile (Some Office.bob) Desk.sketch_row true
                                       Desk.shared))) /\
  objects (fst (deleteFile (Some Office.bob) Desk.sketch_row true Desk.shared))
  = objects Desk.shared /\
  (forall who,
     downloadFile (Some who) Desk.sketch_row
       (fst (deleteFile (Some Office.bob) Desk.sketch_row true Desk.shared))
     = objects Desk.shared !! f_file_path Desk.sketch_row).
Proof.
  apply (deleteFile_leaves_the_object Office.bob Office.banner_job Desk.sketch
           Desk.sketch_draw Desk.shared).
  - reflexivity.
  - discriminate.
Defined.

(** ** Deleting a job: who loses what *)

Lemma jobs_session_may_delete u j :
  Rls.may_delete jobs_policies (session u) j = bool_decide (j_created_by j = Some u).
Proof.
  rewrite jobs_may_delete.
  destruct (decide (j_created_by j = Some u)) as [Hown | Hother].
  - rewrite bool_decide_eq_true_2 by done. by apply (owner_passes (session u) u).
  - rewrite bool_decide_eq_false_2 by done. apply not_true_is_false.
    intros Hok. by apply (owner_passes (session u) u) in Hok.
Qed.

Lemma filter_everything {A} (f : A -> bool) (l : list A) :
  (forall x, x ∈ l -> f x = true) -> List.filter f l = l.
Proof.
  induction l as [|x l IH]; simpl; intros Hall; [done|].
  rewrite (Hall x) by apply list_elem_of_here. f_equal.
  apply IH. intros y Hy. apply Hall. by apply list_elem_of_further.
Qed.

(** X8: when the creator deletes a job, the file rows of that job go with
    it, whoever uploaded them (the cascade does not ask the policies of
    [job_files]), and the file rows of other jobs stay. *)
Theorem deleteJob_takes_every_file_of_the_job (u jobId : uuid) (j : Job) (w : World) :
  j ∈ jobs w -> j_id j = jobId -> j_created_by j = Some u ->
  let w' := fst (deleteJob (Some u) jobId w) in
  (j ∉ jobs w') /\
  (forall f, f ∈ job_files w' <-> f ∈ job_files w /\ f_job_id f <> Some jobId).
Proof.
  intros Hin Hid Hown w'. subst w'. simpl. split.
  - intros Hstay. apply elem_of_delete in Hstay as [_ [Hno | Hno]].
    + by rewrite bool_decide_eq_true_2 in Hno.
    + rewrite jobs_session_may_delete in Hno. by rewrite bool_decide_eq_true_2 in Hno.
  - intros f. rewrite list_elem_of_In, filter_In, <- list_elem_of_In.
    assert (Hgone : forall k,
              k ∈ map j_id (Rls.deleted jobs_policies (session u)
                              (fun x => bool_decide (j_id x = jobId)) (jobs w))
              <-> k = jobId).
    { intros k. rewrite list_elem_of_fmap. split.
      - intros (x & -> & Hx). apply elem_of_deleted in Hx as (_ & Hx & _).
        by apply bool_decide_eq_true in Hx.
      - intros ->. exists j. split; [done|]. apply elem_of_deleted.
        rewrite jobs_session_may_delete. by rewrite !bool_decide_eq_true_2. }
    destruct (f_job_id f) as [k|]; [|by intuition].
    rewrite negb_true_iff, bool_decide_eq_false, Hgone.
    split; intros [? Hk]; (split; [done|]); congruence.
Qed.

Lemma deleteJob_takes_every_file_of_the_job_witness :
  (Desk.banner ∉ jobs (fst (deleteJob (Some Office.alice) Office.banner_job
                             Desk.shared))) /\
  (forall f, f ∈ job_files (fst (deleteJob (Some Office.alice) Office.banner_job
                                    Desk.shared))
             <-> f ∈ job_files Desk.shared /\ f_job_id f <> Some Office.banner_job).
Proof.
  apply (deleteJob_takes_every_file_of_the_job Office.alice Office.banner_job Desk.banner).
  - vm_compute. apply list_elem_of_singleton. reflexivity.
  - reflexivity.
  - reflexivity.
Defined.

(** A delete request, by an id as the database prints it, from a user who
    created no job with that id changes nothing, in no table. *)
Lemma deleteJob_not_the_creator (u jobId : uuid) (w : World) :
  (forall j, j ∈ jobs w -> j_id j = jobId -> j_created_by j <> Some u) ->
  deleteJob (Some u) jobId w = (w, Success).
Proof.
  intros Hother. unfold deleteJob, jobs_delete. simpl.
  assert (Hno : forall j, j ∈ jobs w ->
            bool_decide (j_id j = jobId) && Rls.may_delete jobs_policies (session u) j
            = false).
  { intros j Hj. rewrite jobs_session_may_delete.
    case_bool_decide as Hid; [|done]. simpl.
    apply bool_decide_eq_false_2. by apply Hother. }
  unfold Rls.deleted, Rls.delete.
  rewrite (filter_nothing _ _ Hno).
  rewrite (filter_everything _ (jobs w)) by (intros j Hj; by rewrite Hno).
  rewrite (filter_everything _ (job_files w)).
  - by destruct w.
  - intros f _. by destruct (f_job_id f).
Qed.

(** How Postgres reads some spellings. *)
Example uuid_in_spellings :
  uuid_in Office.banner_job = Some Office.banner_job /\
  uuid_in Desk.banner_job_upper = Some Office.banner_job /\
  uuid_in "70b0000000004000800000000000000a" = Some Office.banner_job /\
  uuid_in "{70b00000-0000-4000-8000-00000000000a}" = Some Office.banner_job /\
  uuid_in "70b00000-0000-4000-8000-00000000000a " = None /\
  uuid_in "not-a-uuid" = None /\
  uuid_in "" = None.
Proof. repeat split. Qed.

(** X9: [deleteJob] takes any text as the job id.  When the text is no
    uuid the request fails: nothing changes and the toast is an error.  When
    it is one, in whatever spelling, and the signed-in user created no job
    with the uuid it stands for, the request goes through and changes
    nothing, in no table, and the toast says success. *)
Theorem deleteJob_by_another_user (u : uuid) (jobId : string) (w : World) :
  (forall j id, j ∈ jobs w -> uuid_in jobId = Some id -> j_id j = id ->
                j_created_by j <> Some u) ->
  deleteJob_text (Some u) jobId w
  = (w, match uuid_in jobId with Some _ => Success | None => Error end).
Proof.
  intros Hother. unfold deleteJob_text.
  destruct (uuid_in jobId) as [id|]; [|done].
  apply deleteJob_not_the_creator. intros j Hj Hid. by apply (Hother j id).
Qed.

Lemma deleteJob_by_another_user_witness :
  deleteJob_text (Some Office.bob) Desk.banner_job_upper Desk.shared
  = (Desk.shared,
     match uuid_in Desk.banner_job_upper with Some _ => Success | None => Error end)
  /\ deleteJob_text (Some Office.bob) "not-a-uuid" Desk.shared
     = (Desk.shared, match uuid_in "not-a-uuid" with Some _ => Success | None => Error end).
Proof.
  split.
  - apply deleteJob_by_another_user.
    intros j id Hj _ _. vm_compute in Hj. apply list_elem_of_singleton in Hj. subst j.
    discriminate.
  - apply deleteJob_by_another_user.
    intros j id _ Hid. vm_compute in Hid. discriminate.
Defined.

(** ** Uploading a batch *)

Lemma storage_upload_free c path content objs objs' :
  storage_upload c path content objs = Some objs' ->
  objs !! path = None /\ objs' = <[path := content]> objs.
Proof.
  unfold storage_upload. destruct (Rls.may_insert _ _ _); [|done].
  destruct (objs !! path); [done|]. by intros [= <-].
Qed.

Lemma upload_loop_success user jobId selectedFiles : forall w w',
  upload_loop user jobId selectedFiles w = (w', Success) ->
  job_files w'
  = job_files w ++ map (fun fd => upload_row user jobId (fst fd) (snd fd)) selectedFiles
  /\ (forall p b, objects w !! p = Some b -> objects w' !! p = Some b)
  /\ (forall file d, (file, d) ∈ selectedFiles ->
        objects w' !! upload_filePath jobId file d = Some (file_bytes file)).
Proof.
  induction selectedFiles as [|[file d] rest IH]; intros w w'; simpl.
  - intros [= <-]. rewrite app_nil_r. repeat split; [done|].
    intros ? ? Hin. by apply elem_of_nil in Hin.
  - destruct (storage_upload _ _ _ _) as [objs|] eqn:Eup; [|done].
    apply storage_upload_free in Eup as [Hfree ->].
    destruct (job_files_insert _ _ _) as [w2|] eqn:Eins; [|done].
    apply job_files_insert_inv in Eins as ->.
    intros Hrest. apply IH in Hrest as (Hrows & Hkeep & Hnew). simpl in *.
    split; [by rewrite Hrows, <- app_assoc|]. split.
    + intros p b Hp. apply Hkeep. rewrite lookup_insert_ne; [done|]. congruence.
    + intros file' d' Hin. apply elem_of_cons in Hin as [[= -> ->] | Hin].
      * apply Hkeep. apply lookup_insert_eq.
      * by apply Hnew.
Qed.

(** X10: when [handleFileUpload] reports success, it has appended one row
    per selected file, in order; it has overwritten no object that was
    there before; and every signed-in user who downloads one of the new
    rows gets exactly the bytes of the file that was selected. *)
Theorem upload_then_download (user : option uuid) (jobId : uuid)
    (selectedFiles : list (File * Draw)) (w w' : World) :
  handleFileUpload user jobId selectedFiles w = (w', Some Success) ->
  job_files w'
  = job_files w ++ map (fun fd => upload_row user jobId (fst fd) (snd fd)) selectedFiles
  /\ (forall p b, objects w !! p = Some b -> objects w' !! p = Some b)
  /\ (forall file d who, (file, d) ∈ selectedFiles ->
        downloadFile (Some who) (upload_row user jobId file d) w'
        = Some (file_bytes file)).
Proof.
  unfold handleFileUpload. destruct selectedFiles as [|fd rest]; [done|].
  destruct (upload_loop user jobId (fd :: rest) w) as [w1 t] eqn:E.
  intros [= <- ->]. apply upload_loop_success in E as (Hrows & Hkeep & Hnew).
  split; [done|]. split; [done|].
  intros file d who Hin. unfold downloadFile. simpl client_caller.
  rewrite storage_session_download. by apply Hnew.
Qed.

Lemma upload_then_download_witness :
  job_files Desk.shared
  = job_files Office.with_file
    ++ map (fun fd => upload_row (Some Office.bob) Office.banner_job (fst fd) (snd fd))
           [(Desk.sketch, Desk.sketch_draw)]
  /\ (forall p b, objects Office.with_file !! p = Some b -> objects Desk.shared !! p = Some b)
  /\ (forall file d who, (file, d) ∈ [(Desk.sketch, Desk.sketch_draw)] ->
        downloadFile (Some who) (upload_row (Some Office.bob) Office.banner_job file d)
          Desk.shared
        = Some (file_bytes file)).
Proof.
  apply (upload_then_download (Some Office.bob) Office.banner_job
           [(Desk.sketch, Desk.sketch_draw)] Office.with_file Desk.shared).
  vm_compute. reflexivity.
Defined.

Lemma upload_loop_app user jobId a b : forall w,
  upload_loop user jobId (a ++ b) w
  = match upload_loop user jobId a w with
    | (w1, Success) => upload_loop user jobId b w1
    | (w1, Error) => (w1, Error)
    end.
Proof.
  induction a as [|[file d] a IH]; intros w; simpl; [done|].
  destruct (storage_upload _ _ _ _) as [objs|]; [|done].
  destruct (job_files_insert _ _ _) as [w2|]; [|done].
  apply IH.
Qed.

Lemma upload_loop_only_appends user jobId selectedFiles : forall w,
  exists added,
    job_files (fst (upload_loop user jobId selectedFiles w)) = job_files w ++ added.
Proof.
  induction selectedFiles as [|[file d] rest IH]; intros w; simpl.
  - exists []. by rewrite app_nil_r.
  - destruct (storage_upload _ _ _ _) as [objs|]; [|exists []; by rewrite app_nil_r].
    destruct (job_files_insert _ _ _) as [w2|] eqn:Eins;
      [|exists []; by rewrite app_nil_r].
    apply job_files_insert_inv in Eins as ->.
    destruct (IH (set_job_files
                    (job_files (set_objects objs w)
                     ++ [upload_row user jobId file d]) (set_objects objs w)))
      as [added Hadded].
    exists (upload_row user jobId file d :: added).
    rewrite Hadded. simpl. by rewrite <- app_assoc.
Qed.

(** X11: a batch is not all-or-nothing.  The loop over [a ++ b] does [a]
    first; if that ends in an error the files of [b] are not tried, and what
    [a] stored before its failing file stays; otherwise [b] goes on from
    where [a] ended.  Whatever happens, rows are only appended. *)
Theorem upload_batch_has_no_rollback (user : option uuid) (jobId : uuid)
    (a b : list (File * Draw)) (w : World) :
  upload_loop user jobId (a ++ b) w
  = match upload_loop user jobId a w with
    | (w1, Success) => upload_loop user jobId b w1
    | (w1, Error) => (w1, Error)
    end
  /\ exists added,
       job_files (fst (upload_loop user jobId (a ++ b) w)) = job_files w ++ added.
Proof. split; [apply upload_loop_app | apply upload_loop_only_appends]. Qed.

(** X12: an upload to a job that is not (or no longer) in the table leaves
    an object without a row: the object is stored first, the row is then
    refused by the foreign key on [job_id], the loop stops with an error and
    nothing removes the object again. *)
Theorem upload_to_a_missing_job (u jobId : uuid) (file : File) (d : Draw)
    (rest : list (File * Draw)) (w : World) :
  jobId ∉ map j_id (jobs w) ->
  objects w !! upload_filePath jobId file d = None ->
  handleFileUpload (Some u) jobId ((file, d) :: rest) w
  = (set_objects (<[upload_filePath jobId file d := file_bytes file]> (objects w)) w,
     Some Error).
Proof.
  intros Hmissing Hfree. unfold handleFileUpload, upload_loop, storage_upload.
  replace (Rls.may_insert storage_objects_policies (client_caller (Some u))
             (object_row (upload_filePath jobId file d))) with true by reflexivity.
  rewrite Hfree. unfold job_files_insert. simpl references at 1.
  rewrite (bool_decide_eq_false_2 (jobId ∈ _)) by done.
  by rewrite andb_false_r.
Qed.

Lemma upload_to_a_missing_job_witness :
  handleFileUpload (Some Office.bob) Office.banner_job [(Desk.sketch, Desk.sketch_draw)]
    Office.staff
  = (set_objects (<[upload_filePath Office.banner_job Desk.sketch Desk.sketch_draw
                    := file_bytes Desk.sketch]> (objects Office.staff)) Office.staff,
     Some Error).
Proof.
  apply upload_to_a_missing_job.
  - vm_compute. apply not_elem_of_nil.
  - reflexivity.
Defined.

(** ** File extensions *)

Lemma split_on_lacks sep s : lacks sep s = true -> split_on sep s = [s].
Proof.
  induction s as [|c s IH]; simpl; [done|]. intros Hl.
  apply andb_true_iff in Hl as [Hc Hl]. apply negb_true_iff in Hc.
  by rewrite Hc, IH.
Qed.

Lemma last_cons_nonempty {A} (x : A) (l : list A) : l <> [] -> last (x :: l) = last l.
Proof. by destruct l. Qed.

(** The last segment of a split has no separator in it. *)
Lemma last_split_on_lacks sep s :
  exists ext, last (split_on sep s) = Some ext /\ lacks sep ext = true.
Proof.
  induction s as [|c s (ext & Hlast & Hlacks)]; simpl; [by exists ""|].
  destruct (Ascii.eqb c sep) eqn:Hc.
  - exists ext. by rewrite last_cons_nonempty by apply split_on_nonempty.
  - destruct (split_on sep s) as [|seg segs] eqn:E; [done|].
    destruct segs as [|seg' segs].
    + simpl in *. injection Hlast as <-. exists (String c seg). simpl.
      by rewrite Hc, Hlacks.
    + exists ext. by rewrite last_cons_nonempty in * by done.
Qed.

Lemma split_on_app_two sep a b :
  exists x y rest, split_on sep (a +:+ String sep b) = x :: y :: rest.
Proof.
  induction a as [|c a (x & y & rest & IH)]; simpl.
  - rewrite Ascii.eqb_refl.
    destruct (split_on sep b) as [|y rest] eqn:E; [by apply split_on_nonempty in E|].
    eauto.
  - destruct (Ascii.eqb c sep); rewrite IH; eauto.
Qed.

(** The last segment of [a.b] is the last segment of [b]. *)
Lemma last_split_on_app sep a b :
  last (split_on sep (a +:+ String sep b)) = last (split_on sep b).
Proof.
  induction a as [|c a IH]; simpl.
  - rewrite Ascii.eqb_refl. apply last_cons_nonempty, split_on_nonempty.
  - destruct (split_on_app_two sep a b) as (x & y & rest & E).
    destruct (Ascii.eqb c sep).
    + rewrite last_cons_nonempty by apply split_on_nonempty. done.
    + rewrite <- IH, E. done.
Qed.

(** X13: the extension [handleFileUpload] and [createNewVersion] put into a
    path is always defined: it is the part of the name after its last dot,
    so it has no dot in it, and for a name without a dot it is the whole
    name. *)
Theorem fileExt_is_the_last_segment (file : File) :
  (exists ext, fileExt file = Some ext /\ lacks "." ext = true) /\
  (lacks "." (file_name file) = true -> fileExt file = Some (file_name file)) /\
  (forall stem ext, file_name file = stem +:+ "." +:+ ext -> lacks "." ext = true ->
     fileExt file = Some ext).
Proof.
  unfold fileExt, js_pop. split; [apply last_split_on_lacks|]. split.
  - intros Hl. by rewrite split_on_lacks.
  - intros stem ext -> Hl.
    change (stem +:+ "." +:+ ext) with (stem +:+ String "." ext).
    by rewrite last_split_on_app, split_on_lacks.
Qed.

Lemma fileExt_is_the_last_segment_witness :
  fileExt Office.logo_png = Some "png".
Proof.
  apply (proj2 (proj2 (fileExt_is_the_last_segment Office.logo_png)) "logo.final" "png");
    reflexivity.
Defined.

(** X14: a file whose name ends in [.pptx] or [.ppt], in any mix of upper
    and lower case, is stored as a presentation file, whatever its MIME
    type says. *)
Theorem powerpoint_is_a_presentation (file : File) (stem ext : string) :
  file_name file = stem +:+ "." +:+ ext ->
  toLowerCase ext = "pptx" \/ toLowerCase ext = "ppt" ->
  isPresentation file = true /\
  (forall user jobId d,
     f_is_presentation (upload_row user jobId file d) = Some true).
Proof.
  intros Hname Hext.
  assert (Hlacks : lacks "." ext = true).
  { assert (Hlow : lacks "." (toLowerCase ext) = true) by (by destruct Hext as [-> | ->]).
    clear Hext Hname. induction ext as [|c ext IH]; simpl in *; [done|].
    apply andb_true_iff in Hlow as [Hc Hlow]. rewrite IH by done.
    rewrite andb_true_r. apply negb_true_iff. apply negb_true_iff in Hc.
    apply Ascii.eqb_neq. intros ->. by vm_compute in Hc. }
  assert (His : isPresentation file = true).
  { unfold isPresentation.
    rewrite (proj2 (proj2 (fileExt_is_the_last_segment file)) stem ext Hname Hlacks).
    simpl. destruct Hext as [-> | ->].
    - rewrite (bool_decide_eq_true_2 (Some "pptx" = Some "pptx")) by done.
      by rewrite orb_true_r.
    - rewrite (bool_decide_eq_true_2 (Some "ppt" = Some "ppt")) by done.
      by rewrite orb_true_r. }
  split; [done|]. intros. simpl. by rewrite His.
Qed.

Lemma powerpoint_is_a_presentation_witness :
  isPresentation Desk.sketch = true /\
  (forall user jobId d,
     f_is_presentation (upload_row user jobId Desk.sketch d) = Some true).
Proof.
  apply (powerpoint_is_a_presentation Desk.sketch "Sketch" "PPTX").
  - reflexivity.
  - left. reflexivity.
Defined.

(** ** The admin panel's delete, and the account page *)

Lemma profiles_no_delete c p : Rls.passes profiles_policies DELETE c p = false.
Proof. reflexivity. Qed.

(** X15: the admin panel's Delete button removes nothing.  [profiles] has
    no DELETE policy, so for every caller, an admin included, and every
    target the request leaves profiles, jobs and files as they are, and the
    panel says the user has been removed. *)
Theorem deleteUser_removes_nothing (user : option uuid) (userId : uuid) (w : World) :
  deleteUser user userId w = (w, Success).
Proof.
  unfold deleteUser, profiles_delete.
  assert (Hnone : Rls.deleted profiles_policies (client_caller user)
                    (fun p => bool_decide (p_id p = userId)) (profiles w) = []).
  { apply filter_nothing. intros p _. unfold Rls.may_delete.
    by rewrite profiles_no_delete, !andb_false_r. }
  rewrite Hnone, delete_nothing by apply profiles_no_delete. simpl.
  rewrite (filter_nothing
             (fun j : Job => match j_created_by j with Some _ | _ => false end))
    by (intros j _; by destruct (j_created_by j)).
  rewrite (filter_everything
             (fun j : Job => negb match j_created_by j with Some _ | _ => false end))
    by (intros j _; by destruct (j_created_by j)).
  rewrite (filter_everything _ (job_files w)).
  - by destruct w.
  - intros f _. by destruct (f_uploaded_by f), (f_job_id f).
Qed.


(** ** Sign-ups *)

Lemma new_profile_row_inv NEW now row :
  new_profile_row NEW now = Some row ->
  exists email,
    u_email NEW = Some email /\
    row = {| p_id := u_id NEW; p_email := email;
             p_full_name := default email (u_meta_full_name NEW);
             p_role := if bool_decide (email ∈ admin_emails) then "admin" else "user";
             p_created_at := now; p_updated_at := now |}.
Proof.
  unfold new_profile_row. destruct (u_email NEW) as [email|]; [|done]. simpl.
  intros Hrow. exists email. split; [done|].
  destruct (u_meta_full_name NEW); simpl in Hrow; injection Hrow as <-;
    simpl; by destruct (bool_decide (email ∈ admin_emails)).
Qed.

Lemma sign_up_inv NEW now w w' :
  sign_up NEW now w = Some w' ->
  exists row,
    new_profile_row NEW now = Some row /\
    (u_id NEW ∉ map u_id (auth_users w)) /\
    (u_id NEW ∉ map p_id (profiles w)) /\
    w' = set_profiles (profiles w ++ [row])
           (set_auth_users (auth_users w ++ [NEW]) w).
Proof.
  unfold sign_up. case_bool_decide as Hu; [done|].
  unfold handle_new_user. destruct (new_profile_row NEW now) as [row|] eqn:Erow; [|done].
  simpl. case_bool_decide as Hp; [done|]. intros [= <-].
  exists row. apply new_profile_row_inv in Erow as (email & _ & ->). by simpl in *.
Qed.

(** X17: a provider record without an email cannot sign up at all: the
    trigger's insert breaks the NOT NULL of [profiles.email] and takes the
    new [auth.users] row down with it.  A sign-up that goes through stores
    the metadata's full name, or the email when the metadata has none. *)
Theorem sign_up_needs_an_email (NEW : AuthUser) (now : timestamp) (w : World) :
  (u_email NEW = None -> sign_up NEW now w = None) /\
  (forall w', sign_up NEW now w = Some w' ->
     exists email row,
       u_email NEW = Some email /\
       profiles w' = profiles w ++ [row] /\
       auth_users w' = auth_users w ++ [NEW] /\
       p_id row = u_id NEW /\
       p_email row = email /\
       p_full_name row = default email (u_meta_full_name NEW)).
Proof.
  split.
  - intros Hnone. unfold sign_up, handle_new_user, new_profile_row. rewrite Hnone.
    simpl. by case_bool_decide.
  - intros w' Hup. apply sign_up_inv in Hup as (row & Hrow & _ & _ & ->).
    apply new_profile_row_inv in Hrow as (email & Hemail & ->).
    exists email. eexists. repeat split; done.
Qed.

Lemma sign_up_needs_an_email_witness :
  sign_up {| u_id := Office.bob; u_email := None; u_meta_full_name := Some "Bob" |} 3
    Office.only_alice
  = None.
Proof.
  apply (proj1 (sign_up_needs_an_email
                  {| u_id := Office.bob; u_email := None; u_meta_full_name := Some "Bob" |}
                  3 Office.only_alice)).
  reflexivity.
Defined.

(** X18: whatever sequence of sign-ups the provider sends, starting from
    nothing, there is exactly one profile per identity, in the same order,
    no identity twice, and every profile has the role the allowlist gives
    its email: ['admin'] or ['user'], never another. *)
Theorem sign_ups_keep_one_profile_each (reqs : list (AuthUser * timestamp)) :
  let w := sign_ups reqs empty_world in
  map p_id (profiles w) = map u_id (auth_users w) /\
  NoDup (map u_id (auth_users w)) /\
  Forall (fun p => p_role p
                   = if bool_decide (p_email p ∈ admin_emails) then "admin" else "user")
         (profiles w).
Proof.
  unfold sign_ups.
  assert (Hgen : forall w0,
    (map p_id (profiles w0) = map u_id (auth_users w0) /\
     NoDup (map u_id (auth_users w0)) /\
     Forall (fun p => p_role p
                      = if bool_decide (p_email p ∈ admin_emails) then "admin" else "user")
            (profiles w0)) ->
    let w := foldl (fun w req => default w (sign_up (fst req) (snd req) w)) w0 reqs in
    map p_id (profiles w) = map u_id (auth_users w) /\
    NoDup (map u_id (auth_users w)) /\
    Forall (fun p => p_role p
                     = if bool_decide (p_email p ∈ admin_emails) then "admin" else "user")
           (profiles w)).
  { induction reqs as [|[NEW now] reqs IH]; intros w0 Hinv; simpl; [done|].
    apply IH. destruct (sign_up NEW now w0) as [w1|] eqn:Eup; simpl; [|done].
    destruct Hinv as (Hids & Hnd & Hroles).
    apply sign_up_inv in Eup as (row & Hrow & Hfresh & _ & ->).
    apply new_profile_row_inv in Hrow as (email & _ & ->). simpl.
    rewrite !map_app, Hids. simpl. split; [done|]. split.
    - apply NoDup_app. split; [done|]. split.
      + intros x Hx Hx'. apply list_elem_of_singleton in Hx' as ->. done.
      + apply NoDup_singleton.
    - apply Forall_app. split; [done|]. by apply Forall_singleton. }
  apply Hgen. simpl. repeat split; constructor.
Qed.

(** ** Creating jobs *)

Lemma priority_default_check (p : string) :
  check_in (Some (js_or p "medium")) ["low"; "medium"; "high"]
  = bool_decide (p ∈ [""; "low"; "medium"; "high"]).
Proof.
  destruct p as [|c p]; [reflexivity|]. simpl.
  apply bool_decide_ext. rewrite (elem_of_cons _ (String c p) ""). split.
  - by right.
  - by intros [? | ?].
Qed.

Lemma known_priority_is_storable (p : string) :
  p ∈ [""; "low"; "medium"; "high"] -> storable p = true.
Proof.
  intros Hp. repeat (apply elem_of_cons in Hp as [-> | Hp]; [reflexivity|]).
  by apply elem_of_nil in Hp.
Qed.

(** X19: for a form whose name, description and client name are ASCII
    text, a signed-in user's [createJob] goes through exactly when the new id
    is free, the user has a profile, the form's priority is one of low,
    medium, high or empty (an empty one is stored as medium), and none of
    the three texts holds the character U+0000, which a Postgres text cannot
    store; then the row is appended with status pending.  In every other
    case nothing is stored and the dialog reports an error. *)
Theorem createJob_outcome (u : uuid) (form : JobForm) (new_id : uuid) (w : World) :
  seven_bit (form_name form) = true ->
  seven_bit (form_description form) = true ->
  seven_bit (form_client_name form) = true ->
  createJob (Some u) form new_id w
  = if bool_decide (new_id ∉ map j_id (jobs w))
       && bool_decide (u ∈ map p_id (profiles w))
       && bool_decide (form_priority form ∈ [""; "low"; "medium"; "high"])
       && storable (form_name form)
       && storable (form_description form)
       && storable (form_client_name form)
    then (set_jobs (jobs w ++ [createJob_row (Some u) form new_id]) w, Success)
    else (w, Error).
Proof.
  intros _ _ _. unfold createJob, jobs_insert.
  replace (Rls.may_insert jobs_policies (client_caller (Some u))
             (createJob_row (Some u) form new_id)) with true by reflexivity.
  change (j_priority (createJob_row (Some u) form new_id))
    with (Some (js_or (form_priority form) "medium")).
  rewrite priority_default_check. simpl.
  destruct (decide (form_priority form ∈ [""; "low"; "medium"; "high"])) as [Hp | Hp].
  - rewrite (known_priority_is_storable _ Hp).
    rewrite (bool_decide_eq_true_2 _ Hp), !andb_true_r.
    destruct (storable (form_name form)), (storable (form_description form)),
      (storable (form_client_name form)); simpl; rewrite ?andb_false_r; try done.
    rewrite !andb_true_r. by destruct (_ && _).
  - rewrite (bool_decide_eq_false_2 _ Hp), !andb_false_r. simpl.
    by destruct (_ && _ && _ && _).
Qed.

Lemma createJob_outcome_witness :
  createJob (Some Office.alice) Office.banner_form Office.banner_job Office.staff
  = if bool_decide (Office.banner_job ∉ map j_id (jobs Office.staff))
       && bool_decide (Office.alice ∈ map p_id (profiles Office.staff))
       && bool_decide (form_priority Office.banner_form ∈ [""; "low"; "medium"; "high"])
       && storable (form_name Office.banner_form)
       && storable (form_description Office.banner_form)
       && storable (form_client_name Office.banner_form)
    then (set_jobs (jobs Office.staff
                    ++ [createJob_row (Some Office.alice) Office.banner_form
                          Office.banner_job]) Office.staff, Success)
    else (Office.staff, Error).
Proof.
  apply createJob_outcome; reflexivity.
Defined.

(** X20: [useTemplate] makes a job that belongs to the caller, not to the
    template's creator, named after the template; its literal status and
    priority always satisfy the CHECK constraints, so it goes through
    exactly when the caller has a profile and the new id is free. *)
Theorem useTemplate_outcome (u : uuid) (template : Template) (new_id : uuid)
    (w : World) :
  useTemplate (Some u) template new_id w
  = (if bool_decide (new_id ∉ map j_id (jobs w))
        && bool_decide (u ∈ map p_id (profiles w))
     then (set_jobs (jobs w ++ [useTemplate_row (Some u) template new_id]) w, Success)
     else (w, Error))
  /\ j_created_by (useTemplate_row (Some u) template new_id) = Some u
  /\ j_name (useTemplate_row (Some u) template new_id) = t_name template +:+ " - Copy".
Proof.
  split; [|done]. unfold useTemplate, jobs_insert.
  replace (Rls.may_insert jobs_policies (client_caller (Some u))
             (useTemplate_row (Some u) template new_id)) with true by reflexivity.
  simpl. rewrite !andb_true_r. by destruct (_ && _).
Qed.

(** ** Signed out *)

Section SelectFacts.
Context {R : Type}.
Variable ps : list (Policy R).

Lemma select_none c f (tbl : list R) :
  (forall r, Rls.passes ps SELECT c r = false) -> Rls.select ps c f tbl = [].
Proof.
  intros Hno. apply filter_nothing. intros r _. by rewrite Hno, andb_false_r.
Qed.

Lemma select_all c f (tbl : list R) :
  (forall r, Rls.passes ps SELECT c r = true) ->
  Rls.select ps c f tbl = List.filter f tbl.
Proof.
  intros Hall. apply List.filter_ext. intros r. by rewrite Hall, andb_true_r.
Qed.

End SelectFacts.

(** X21: reading needs a session.  With the anonymous key every select on
    profiles, jobs, job files, comments and versions comes back empty and no
    object can be downloaded; with any session every row that matches the
    request's filter comes back, whoever owns it, and every object can be
    downloaded. *)
Theorem reading_needs_a_session :
  (forall f tbl, Rls.select profiles_policies anonymous f tbl = []) /\
  (forall f tbl, Rls.select jobs_policies anonymous f tbl = []) /\
  (forall f tbl, Rls.select job_files_policies anonymous f tbl = []) /\
  (forall f tbl, Rls.select file_comments_policies anonymous f tbl = []) /\
  (forall f tbl, Rls.select file_versions_policies anonymous f tbl = []) /\
  (forall path objs, storage_download anonymous path objs = None) /\
  (forall u f tbl, Rls.select profiles_policies (session u) f tbl = List.filter f tbl) /\
  (forall u f tbl, Rls.select jobs_policies (session u) f tbl = List.filter f tbl) /\
  (forall u f tbl, Rls.select job_files_policies (session u) f tbl = List.filter f tbl) /\
  (forall u f tbl, Rls.select file_comments_policies (session u) f tbl = List.filter f tbl) /\
  (forall u f tbl, Rls.select file_versions_policies (session u) f tbl = List.filter f tbl) /\
  (forall u path objs, storage_download (session u) path objs = objs !! path).
Proof.
  repeat split; intros; try (by apply select_none); try (by apply select_all).
Qed.

(** X22: a signed-out client stores nothing: creating a job or a template,
    uploading files and creating a version all end in an error and leave
    every table and the object store as they were. *)
Theorem signed_out_client_stores_nothing (w : World) :
  (forall form new_id, createJob None form new_id w = (w, Error)) /\
  (forall form payload new_id, createTemplate None form payload new_id w = (w, Error)) /\
  (forall template new_id, useTemplate None template new_id w = (w, Error)) /\
  (forall jobId fd rest, handleFileUpload None jobId (fd :: rest) w = (w, Some Error)) /\
  (forall cl file changelog new_id,
     collab_user cl = None ->
     createNewVersion cl file changelog new_id w = (w, cl, Error)).
Proof.
  split; [|split; [|split; [|split]]].
  - intros form new_id. unfold createJob. by destruct (storable _ && _ && _ && _).
  - reflexivity.
  - reflexivity.
  - intros jobId [file d] rest. reflexivity.
  - intros cl file changelog new_id Hnone. unfold createNewVersion. by rewrite Hnone.
Qed.

Lemma signed_out_client_stores_nothing_witness :
  createNewVersion {| fileId := Office.logo_id; collab_user := None; versions := [] |}
    Office.logo_png "sharper" "5e000000-0000-4000-8000-00000000000d" Office.with_file
  = (Office.with_file,
     {| fileId := Office.logo_id; collab_user := None; versions := [] |}, Error).
Proof.
  apply (proj2 (proj2 (proj2 (proj2 (signed_out_client_stores_nothing Office.with_file))))).
  reflexivity.
Defined.

(** ** Templates *)

(** X23: the SELECT policy of templates does not ask for a session: with
    the anonymous key a select returns exactly the matching templates whose
    [is_public] is true. *)
Theorem anonymous_sees_public_templates (f : Template -> bool) (tbl : list Template) :
  Rls.select project_templates_policies anonymous f tbl
  = List.filter (fun t => f t && bool_decide (t_is_public t = Some true)) tbl.
Proof.
  apply List.filter_ext. intros t. rewrite templates_passes_select. f_equal.
  simpl. rewrite orb_false_r. by destruct (t_is_public t) as [[]|].
Qed.



(** ** Notifications *)

(** X25: anyone, signed in or not, may insert a notification addressed to
    any user; only the addressee reads or updates it; and nobody can delete
    one. *)
Theorem notifications_policy (c : Caller) (r : Notification) :
  Rls.may_insert notifications_policies c r = true /\
  (Rls.passes notifications_policies SELECT c r = true
   <-> auth_uid c = Some (n_user_id r)) /\
  (Rls.may_update notifications_policies c r = true
   <-> auth_uid c = Some (n_user_id r)) /\
  Rls.passes notifications_policies DELETE c r = false /\
  (forall f tbl, Rls.delete notifications_policies c f tbl = tbl).
Proof.
  assert (Hsel : Rls.passes notifications_policies SELECT c r
                 = Sql.holds (Sql.eq (auth_uid c) (Some (n_user_id r))))
    by (unfold Rls.passes; simpl; by rewrite !orb_false_r).
  assert (Hupd : Rls.passes notifications_policies UPDATE c r
                 = Sql.holds (Sql.eq (auth_uid c) (Some (n_user_id r))))
    by (unfold Rls.passes; simpl; by rewrite !orb_false_r).
  assert (Howner : Sql.holds (Sql.eq (auth_uid c) (Some (n_user_id r))) = true
                   <-> auth_uid c = Some (n_user_id r)).
  { rewrite holds_eq. split.
    - by intros (x & -> & [= ->]).
    - intros ->. eauto. }
  split; [reflexivity|]. split; [by rewrite Hsel|]. split.
  - unfold Rls.may_update. rewrite Hsel, Hupd, andb_diag. done.
  - split; [reflexivity|]. intros. by apply delete_nothing.
Qed.

(** ** A stale version list and the object store *)

Lemma createNewVersion_success_objects cl file changelog new_id w w' cl' :
  createNewVersion cl file changelog new_id w = (w', cl', Success) ->
  objects w' = <[version_filePath cl file := file_bytes file]> (objects w).
Proof.
  unfold createNewVersion.
  destruct (storage_upload _ _ _ _) as [objs|] eqn:Eup; [|done].
  apply storage_upload_free in Eup as [_ ->].
  destruct (file_versions_insert _ _ _) as [w2|] eqn:E; [|done].
  intros [= <- _]. by apply file_versions_insert_inv in E as ->.
Qed.

(** X26: two components with equally long (stale) version lists race for
    the same object path when their files have the same extension: once the
    first creation has gone through, the second one fails at the upload,
    because the object store does not overwrite, and stores nothing.  (With
    different extensions both go through, under the same number.) *)
Theorem stale_version_with_same_extension_fails (cl1 cl2 : Collab) (file1 file2 : File)
    (changelog1 changelog2 : string) (id1 id2 : uuid) (w w1 : World) (cl1' : Collab) :
  fileId cl1 = fileId cl2 ->
  length (versions cl1) = length (versions cl2) ->
  fileExt file1 = fileExt file2 ->
  createNewVersion cl1 file1 changelog1 id1 w = (w1, cl1', Success) ->
  createNewVersion cl2 file2 changelog2 id2 w1 = (w1, cl2, Error).
Proof.
  intros Hid Hlen Hext Hfirst.
  apply createNewVersion_success_objects in Hfirst.
  assert (Hpath : version_filePath cl2 file2 = version_filePath cl1 file1)
    by (unfold version_filePath; by rewrite Hid, Hlen, Hext).
  unfold createNewVersion, storage_upload.
  rewrite Hpath, Hfirst, lookup_insert_eq.
  by destruct (Rls.may_insert _ _ _).
Qed.

Lemma stale_version_with_same_extension_fails_witness :
  createNewVersion (Office.panel Office.bob) Office.logo_png "again"
    "5e000000-0000-4000-8000-00000000000e"
    (fst (fst (createNewVersion (Office.panel Office.alice) Office.logo_png "sharper"
                 "5e000000-0000-4000-8000-00000000000d" Office.with_file)))
  = (fst (fst (createNewVersion (Office.panel Office.alice) Office.logo_png "sharper"
                 "5e000000-0000-4000-8000-00000000000d" Office.with_file)),
     Office.panel Office.bob, Error).
Proof.
  apply (stale_version_with_same_extension_fails (Office.panel Office.alice)
           (Office.panel Office.bob) Office.logo_png Office.logo_png "sharper" "again"
           "5e000000-0000-4000-8000-00000000000d" "5e000000-0000-4000-8000-00000000000e"
           Office.with_file _
           (snd (fst (createNewVersion (Office.panel Office.alice) Office.logo_png
                        "sharper" "5e000000-0000-4000-8000-00000000000d"
                        Office.with_file)))).
  - reflexivity.
  - reflexivity.
  - reflexivity.
  - vm_compute. reflexivity.
Defined.

(** ** The dashboard's filter *)

Lemma includes_empty s : includes s "" = true.
Proof. by destruct s. Qed.

(** X27: with an empty search box and the status filter on 'all' the
    dashboard's filter keeps every job, in order; with any other status
    filter it keeps only jobs of exactly that status, so a job whose status
    is NULL shows under 'all' alone. *)
Theorem filteredJobs_defaults (jobs_ : list Job) :
  filteredJobs jobs_ "" "all" = jobs_ /\
  (forall searchTerm statusFilter j,
     j ∈ filteredJobs jobs_ searchTerm statusFilter ->
     j ∈ jobs_ /\ (statusFilter = "all" \/ j_status j = Some statusFilter)).
Proof.
  split.
  - apply filter_everything. intros j _. simpl. by rewrite includes_empty.
  - intros searchTerm statusFilter j Hj.
    apply list_elem_of_In, filter_In in Hj as [Hin Hj].
    split; [by apply list_elem_of_In|].
    apply andb_true_iff in Hj as [_ Hj]. apply orb_true_iff in Hj as [Hj | Hj];
      apply bool_decide_eq_true in Hj; auto.
Qed.

Lemma filteredJobs_defaults_witness :
  Desk.banner ∈ jobs Desk.shared /\
  ("pending" = "all" \/ j_status Desk.banner = Some "pending").
Proof.
  apply (proj2 (filteredJobs_defaults (jobs Desk.shared)) "BANNER" "pending" Desk.banner).
  vm_compute. apply list_elem_of_singleton. reflexivity.
Defined.
